(** * Azure SQL management server: handlers, lifespan and prompt table

    A shallow embedding of [azure_sql_server-mini.py].  The tool handlers are
    written in a state-and-exception monad over the server state (the shared
    lifespan context, the cloud the SDK talks to, the log of SDK calls and
    standard output); the Azure SDK and the Python runtime functions the
    module imports are an interface ([AzureSDK]) the development is
    parametric in.  Text is modelled as [string], the UTF-8 encoding of the
    Python [str]. *)

From Stdlib Require Import ZArith Ascii String List Lia.
From stdpp Require Import base strings gmap list pretty.

Local Open Scope string_scope.
Local Open Scope list_scope.
Local Open Scope Z_scope.

(** ** Python values and text *)

Module Py.

(** Instances of [Exception], the faults an [except Exception] clause
    catches ([KeyboardInterrupt] and [SystemExit] are not among them).  The
    two classes the module names in an [except] clause are kept apart;
    every other subclass is [Exception] with its class name.  [str(e)] is
    the message. *)
Inductive exn : Type :=
| ResourceNotFoundError (message : string)
| JSONDecodeError (message : string)
| Exception (class_name : string) (message : string).

Definition str_exn (e : exn) : string :=
  match e with
  | ResourceNotFoundError m => m
  | JSONDecodeError m => m
  | Exception _ m => m
  end.

(** The result of evaluating an expression: a value or a raised exception. *)
Inductive outcome (A : Type) : Type :=
| Ok (a : A)
| Raise (e : exn).
Arguments Ok {A} a.
Arguments Raise {A} e.

(** Truthiness: [bool(s)] for a [str], [bool(x)] for an [Optional[str]]. *)
Definition truthy_str (s : string) : bool :=
  match s with
  | EmptyString => false
  | String _ _ => true
  end.

Definition truthy_opt_str (x : option string) : bool :=
  match x with
  | None => false
  | Some s => truthy_str s
  end.

Definition truthy_list {A} (l : list A) : bool :=
  match l with
  | [] => false
  | _ :: _ => true
  end.

(** [f"{x}"] for an [Optional[str]] attribute. *)
Definition fmt (x : option string) : string :=
  match x with
  | None => "None"
  | Some s => s
  end.

Definition nl : string := String "010"%char EmptyString.

(** [s * n] *)
Fixpoint str_mul (s : string) (n : nat) : string :=
  match n with
  | O => ""
  | S n' => s +:+ str_mul s n'
  end.

(** [sep.join(l)] *)
Fixpoint join (sep : string) (l : list string) : string :=
  match l with
  | [] => ""
  | [x] => x
  | x :: rest => x +:+ sep +:+ join sep rest
  end.

(** [s.split(c)] for a one-character separator. *)
Fixpoint split_aux (c : ascii) (s : string) (cur : string) : list string :=
  match s with
  | EmptyString => [String.rev cur]
  | String a s' =>
      if Ascii.eqb a c then String.rev cur :: split_aux c s' ""
      else split_aux c s' (String a cur)
  end.

Definition split (c : ascii) (s : string) : list string := split_aux c s "".

(** [str.lower()].  Only the letters A-Z are mapped.  Python also lowers
    letters outside ASCII, but to text outside ASCII (U+212A, which lowers
    to k, and U+0130, which lowers to i and a combining dot, apart), and no
    key of the suggestion table has a k or a character outside ASCII: a
    string equals a key after this [lower] exactly when it does after
    Python's. *)
Definition lower_ascii (a : ascii) : ascii :=
  let n := N_of_ascii a in
  if ((65 <=? n) && (n <=? 90))%N then ascii_of_N (n + 32) else a.

Fixpoint lower (s : string) : string :=
  match s with
  | EmptyString => EmptyString
  | String a s' => String (lower_ascii a) (lower s')
  end.

(** [s.startswith(p)] *)
Definition startswith (s p : string) : bool := String.prefix p s.

End Py.
Export Py.

(** ** The JSON decoder

    [json.loads] is the interpreter's, not the repository's.  [Json.loads]
    follows CPython's [json.decoder] and [json.scanner] (strict mode, no
    hooks) on the remaining input instead of an index; the interpreter's
    resource limits are not modelled, and running out of recursion budget
    is a [RecursionError], which the budget chosen by [loads] excludes. *)

Module Json.

#[local] Set Warnings "-register-all".

Inductive value : Type :=
| JNull
| JBool (b : bool)
| JInt (n : Z)
| JFloat (literal : string)
| JString (s : string)
| JArray (items : list value)
| JObject (pairs : list (string * value)).

(** [d[k] = v] on an insertion-ordered dict. *)
Fixpoint dict_set (k : string) (v : value) (d : list (string * value))
  : list (string * value) :=
  match d with
  | [] => [(k, v)]
  | (k', v') :: d' =>
      if String.eqb k k' then (k', v) :: d' else (k', v') :: dict_set k v d'
  end.

(** [dict(pairs)] *)
Definition dict_of_pairs (pairs : list (string * value)) : list (string * value) :=
  fold_left (fun d kv => dict_set (fst kv) (snd kv) d) pairs [].

Inductive scan (A : Type) : Type :=
| Scanned (a : A) (rest : string)
| StopIteration
| DecodeError (msg : string)
| OutOfBudget.
Arguments Scanned {A} a rest.
Arguments StopIteration {A}.
Arguments DecodeError {A} msg.
Arguments OutOfBudget {A}.

Definition is_ws (a : ascii) : bool :=
  let n := N_of_ascii a in
  ((n =? 32) || (n =? 9) || (n =? 10) || (n =? 13))%N.

Fixpoint skip_ws (s : string) : string :=
  match s with
  | String a s' => if is_ws a then skip_ws s' else s
  | EmptyString => s
  end.

Definition is_digit (a : ascii) : bool :=
  let n := N_of_ascii a in ((48 <=? n) && (n <=? 57))%N.

Fixpoint span_digits (s : string) : string * string :=
  match s with
  | String a s' =>
      if is_digit a then let '(d, r) := span_digits s' in (String a d, r)
      else ("", s)
  | EmptyString => ("", s)
  end.

Definition hex_val (a : ascii) : option N :=
  let n := N_of_ascii a in
  if ((48 <=? n) && (n <=? 57))%N then Some (n - 48)%N
  else if ((65 <=? n) && (n <=? 70))%N then Some (n - 55)%N
  else if ((97 <=? n) && (n <=? 102))%N then Some (n - 87)%N
  else None.

(** The four hex digits after [\u]. *)
Definition decode_uXXXX (s : string) : option (N * string) :=
  match s with
  | String a (String b (String c (String d rest))) =>
      match hex_val a, hex_val b, hex_val c, hex_val d with
      | Some x, Some y, Some z, Some w =>
          Some (((x * 16 + y) * 16 + z) * 16 + w, rest)%N
      | _, _, _, _ => None
      end
  | _ => None
  end.

(** [chr(cp)] in UTF-8 (a lone surrogate is written as three bytes). *)
Definition utf8 (cp : N) : string :=
  let byte (n : N) := String (ascii_of_N n) EmptyString in
  (if cp <? 128 then byte cp
   else if cp <? 2048 then
     byte (192 + cp / 64) +:+ byte (128 + cp mod 64)
   else if cp <? 65536 then
     byte (224 + cp / 4096) +:+ byte (128 + (cp / 64) mod 64)
       +:+ byte (128 + cp mod 64)
   else
     byte (240 + cp / 262144) +:+ byte (128 + (cp / 4096) mod 64)
       +:+ byte (128 + (cp / 64) mod 64) +:+ byte (128 + cp mod 64))%N.

Definition backslash (a : ascii) : option ascii :=
  match a with
  | "034"%char => Some "034"%char
  | "\"%char => Some "\"%char
  | "/"%char => Some "/"%char
  | "b"%char => Some "008"%char
  | "f"%char => Some "012"%char
  | "n"%char => Some "010"%char
  | "r"%char => Some "013"%char
  | "t"%char => Some "009"%char
  | _ => None
  end.

(** The character a [\u] escape stands for: [uni] is the value of its four
    digits and [r] the input after them; a high surrogate followed by an
    escaped low surrogate is one character. *)
Definition escaped_char (uni : N) (r : string) : scan N :=
  if ((55296 <=? uni) && (uni <=? 56319))%N then
    match r with
    | String "\"%char (String "u"%char r2) =>
        match decode_uXXXX r2 with
        | None => DecodeError "Invalid \uXXXX escape"
        | Some (uni2, r3) =>
            if ((56320 <=? uni2) && (uni2 <=? 57343))%N
            then Scanned (65536 + (uni - 55296) * 1024 + (uni2 - 56320))%N r3
            else Scanned uni r
        end
    | _ => Scanned uni r
    end
  else Scanned uni r.

(** [scanstring(s, end, strict=True)]: [s] starts after the opening quote;
    [acc] holds the decoded characters so far, reversed. *)
Fixpoint scanstring_aux (n : nat) (s : string) (acc : string) : scan string :=
  match n with
  | O => DecodeError "Unterminated string starting at"
  | S n' =>
  match s with
  | EmptyString => DecodeError "Unterminated string starting at"
  | String a s' =>
      if Ascii.eqb a "034"%char then Scanned (String.rev acc) s'
      else if Ascii.eqb a "\"%char then
        match s' with
        | EmptyString => DecodeError "Unterminated string starting at"
        | String esc s'' =>
            if Ascii.eqb esc "u"%char then
              match decode_uXXXX s'' with
              | None => DecodeError "Invalid \uXXXX escape"
              | Some (uni, r) =>
                  match escaped_char uni r with
                  | Scanned cp r' =>
                      scanstring_aux n' r' (String.rev (utf8 cp) +:+ acc)
                  | StopIteration => StopIteration
                  | DecodeError msg => DecodeError msg
                  | OutOfBudget => OutOfBudget
                  end
              end
            else
              match backslash esc with
              | Some c => scanstring_aux n' s'' (String c acc)
              | None => DecodeError "Invalid \escape"
              end
        end
      else if (N_of_ascii a <? 32)%N then DecodeError "Invalid control character at"
      else scanstring_aux n' s' (String a acc)
  end
  end.

Definition scanstring (s : string) : scan string :=
  scanstring_aux (String.length s) s "".

Definition scan_map {A B} (f : A -> B) (r : scan A) : scan B :=
  match r with
  | Scanned a rest => Scanned (f a) rest
  | StopIteration => StopIteration
  | DecodeError msg => DecodeError msg
  | OutOfBudget => OutOfBudget
  end.

(** [s[len(p):]] when [s.startswith(p)]. *)
Fixpoint strip_prefix (p s : string) : option string :=
  match p, s with
  | EmptyString, _ => Some s
  | String a p', String b s' => if Ascii.eqb a b then strip_prefix p' s' else None
  | String _ _, EmptyString => None
  end.

(** [NUMBER_RE], group by group: an optional minus sign and then 0 or a
    digit string without leading zero; optionally a dot and digits;
    optionally e or E, an optional sign and digits. *)
Definition match_integer (s : string) : option (string * string) :=
  let '(sign, s1) :=
    match s with
    | String "-"%char r => ("-", r)
    | _ => ("", s)
    end in
  match s1 with
  | String "0"%char r => Some (sign +:+ "0", r)
  | String a _ =>
      if is_digit a then let '(d, r) := span_digits s1 in Some (sign +:+ d, r)
      else None
  | EmptyString => None
  end.

Definition match_frac (s : string) : string * string :=
  match s with
  | String "."%char r =>
      match span_digits r with
      | (EmptyString, _) => ("", s)
      | (d, r') => ("." +:+ d, r')
      end
  | _ => ("", s)
  end.

Definition match_exp (s : string) : string * string :=
  match s with
  | String e r =>
      if Ascii.eqb e "e"%char || Ascii.eqb e "E"%char then
        let '(sg, r1) :=
          match r with
          | String "-"%char r1 => ("-", r1)
          | String "+"%char r1 => ("+", r1)
          | _ => ("", r)
          end in
        match span_digits r1 with
        | (EmptyString, _) => ("", s)
        | (d, r2) => (String e (sg +:+ d), r2)
        end
      else ("", s)
  | EmptyString => ("", s)
  end.

Fixpoint digits_value (s : string) (acc : Z) : Z :=
  match s with
  | EmptyString => acc
  | String a s' => digits_value s' (10 * acc + (Z.of_N (N_of_ascii a) - 48))
  end.

(** [int(literal)] for a literal matched by the integer group. *)
Definition parse_int (literal : string) : Z :=
  match literal with
  | String "-"%char d => - digits_value d 0
  | d => digits_value d 0
  end.

Definition match_number (s : string) : option (value * string) :=
  match match_integer s with
  | None => None
  | Some (integer, r) =>
      let '(frac, r1) := match_frac r in
      let '(exp, r2) := match_exp r1 in
      if truthy_str frac || truthy_str exp
      then Some (JFloat (integer +:+ frac +:+ exp), r2)
      else Some (JInt (parse_int integer), r2)
  end.

(** The loop of [JSONArray]; [acc] holds the values so far, reversed. *)
Fixpoint array_loop (scan_once : string -> scan value) (n : nat) (s : string)
    (acc : list value) : scan value :=
  match n with
  | O => OutOfBudget
  | S n' =>
      match scan_once s with
      | Scanned v r =>
          match skip_ws r with
          | String "]"%char r' => Scanned (JArray (rev (v :: acc))) r'
          | String ","%char r' => array_loop scan_once n' (skip_ws r') (v :: acc)
          | _ => DecodeError "Expecting ',' delimiter"
          end
      | StopIteration => DecodeError "Expecting value"
      | DecodeError msg => DecodeError msg
      | OutOfBudget => OutOfBudget
      end
  end.

(** [s] starts after the opening bracket. *)
Definition JSONArray (scan_once : string -> scan value) (s : string) : scan value :=
  match skip_ws s with
  | String "]"%char r => Scanned (JArray []) r
  | s1 => array_loop scan_once (S (String.length s1)) s1 []
  end.

(** The loop of [JSONObject]; [s] starts after the opening quote of a key. *)
Fixpoint object_loop (scan_once : string -> scan value) (n : nat) (s : string)
    (pairs : list (string * value)) : scan value :=
  match n with
  | O => OutOfBudget
  | S n' =>
      match scanstring s with
      | Scanned key r =>
          match skip_ws r with
          | String ":"%char r1 =>
              match scan_once (skip_ws r1) with
              | Scanned v r2 =>
                  match skip_ws r2 with
                  | String "}"%char r3 =>
                      Scanned (JObject (dict_of_pairs (rev ((key, v) :: pairs)))) r3
                  | String ","%char r3 =>
                      match skip_ws r3 with
                      | String "034"%char r4 =>
                          object_loop scan_once n' r4 ((key, v) :: pairs)
                      | _ => DecodeError
                               "Expecting property name enclosed in double quotes"
                      end
                  | _ => DecodeError "Expecting ',' delimiter"
                  end
              | StopIteration => DecodeError "Expecting value"
              | DecodeError msg => DecodeError msg
              | OutOfBudget => OutOfBudget
              end
          | _ => DecodeError "Expecting ':' delimiter"
          end
      | StopIteration => StopIteration
      | DecodeError msg => DecodeError msg
      | OutOfBudget => OutOfBudget
      end
  end.

(** [s] starts after the opening brace. *)
Definition JSONObject (scan_once : string -> scan value) (s : string) : scan value :=
  match skip_ws s with
  | String "}"%char r => Scanned (JObject []) r
  | String "034"%char r => object_loop scan_once (S (String.length r)) r []
  | _ => DecodeError "Expecting property name enclosed in double quotes"
  end.

(** [scan_once(string, idx)]; [depth] bounds the nesting of containers. *)
Fixpoint scan_once (depth : nat) (s : string) : scan value :=
  match depth with
  | O => OutOfBudget
  | S depth' =>
      match s with
      | EmptyString => StopIteration
      | String nextchar rest =>
          if Ascii.eqb nextchar "034"%char then scan_map JString (scanstring rest)
          else if Ascii.eqb nextchar "{"%char then JSONObject (scan_once depth') rest
          else if Ascii.eqb nextchar "["%char then JSONArray (scan_once depth') rest
          else
            match strip_prefix "null" s, strip_prefix "true" s, strip_prefix "false" s with
            | Some r, _, _ => Scanned JNull r
            | None, Some r, _ => Scanned (JBool true) r
            | None, None, Some r => Scanned (JBool false) r
            | None, None, None =>
                match match_number s with
                | Some (v, r) => Scanned v r
                | None =>
                    match strip_prefix "NaN" s, strip_prefix "Infinity" s,
                          strip_prefix "-Infinity" s with
                    | Some r, _, _ => Scanned (JFloat "NaN") r
                    | None, Some r, _ => Scanned (JFloat "Infinity") r
                    | None, None, Some r => Scanned (JFloat "-Infinity") r
                    | None, None, None => StopIteration
                    end
                end
            end
      end
  end.

(** U+FEFF in UTF-8. *)
Definition BOM : string :=
  String "239"%char (String "187"%char (String "191"%char EmptyString)).

(** [json.loads(s)] for a [str] argument. *)
Definition loads (s : string) : outcome value :=
  if startswith s BOM
  then Raise (JSONDecodeError "Unexpected UTF-8 BOM (decode using utf-8-sig)")
  else
    match scan_once (S (String.length s)) (skip_ws s) with
    | Scanned obj rest =>
        match skip_ws rest with
        | EmptyString => Ok obj
        | String _ _ => Raise (JSONDecodeError "Extra data")
        end
    | StopIteration => Raise (JSONDecodeError "Expecting value")
    | DecodeError msg => Raise (JSONDecodeError msg)
    | OutOfBudget =>
        Raise (Exception "RecursionError"
                 "maximum recursion depth exceeded while decoding a JSON document")
    end.

(** [json.loads(s)] under an interpreter that allows [limit] nested calls
    of the scanner: deeper nesting is a [RecursionError]. *)
Definition loads_within (limit : nat) (s : string) : outcome value :=
  if startswith s BOM
  then Raise (JSONDecodeError "Unexpected UTF-8 BOM (decode using utf-8-sig)")
  else
    match scan_once limit (skip_ws s) with
    | Scanned obj rest =>
        match skip_ws rest with
        | EmptyString => Ok obj
        | String _ _ => Raise (JSONDecodeError "Extra data")
        end
    | StopIteration => Raise (JSONDecodeError "Expecting value")
    | DecodeError msg => Raise (JSONDecodeError msg)
    | OutOfBudget =>
        Raise (Exception "RecursionError"
                 "maximum recursion depth exceeded while decoding a JSON document")
    end.

End Json.

(** ** The Azure SDK

    The SDK is an external collaborator.  Its model classes are records with
    the attributes the module reads; the classes of its opaque objects, the
    cloud behind them and the behaviour of every operation are the interface
    [AzureSDK]. *)

(** A [datetime], carried as the text [str()] gives for it. *)
Record datetime : Type := { str_datetime : string }.

Module ResourceGroup.
Record t : Type := {
  name : option string;
  location : string;
  tags : option (list (string * string))
}.
End ResourceGroup.

Module Server.
Record t : Type := {
  id : option string;
  name : option string;
  location : string;
  state : option string;
  version : option string;
  administrator_login : option string;
  fully_qualified_domain_name : option string
}.
End Server.

Module Sku.
Record t : Type := {
  name : option string;
  tier : option string
}.
End Sku.

Module Database.
Record t : Type := {
  name : option string;
  location : string;
  status : option string;
  sku : option Sku.t;
  current_service_objective_name : option string;
  max_size_bytes : option Z;
  creation_date : option datetime
}.
End Database.

Module CheckNameAvailabilityRequest.
Record t : Type := { name : string; type : string }.
End CheckNameAvailabilityRequest.

Module CheckNameAvailabilityResponse.
Record t : Type := { available : option bool; message : option string }.
End CheckNameAvailabilityResponse.

(** The parameter dicts the handlers build, one record per dict literal. *)
Record rg_params : Type := {
  rg_location : string;
  rg_tags : Json.value
}.

Record server_params : Type := {
  sp_location : string;
  sp_version : string;
  sp_administrator_login : string;
  sp_administrator_login_password : string
}.

Record sku_params : Type := { sku_name : string; sku_tier : string }.

Record db_params : Type := {
  db_location : string;
  db_sku : sku_params
}.

(** The classes of the SDK's opaque objects. *)
Class AzureTypes : Type := {
  Credential : Type;
  SqlManagementClient : Type;
  ResourceManagementClient : Type;
  LROPoller : Type -> Type
}.

(** The operations the handlers invoke, indexed by what they return. *)
Inductive azure_op `{AzureTypes} : Type -> Type :=
| resource_groups_list (client : ResourceManagementClient)
    : azure_op (list ResourceGroup.t)
| resource_groups_create_or_update (client : ResourceManagementClient)
    (resource_group_name : string) (parameters : rg_params)
    : azure_op ResourceGroup.t
| servers_list (client : SqlManagementClient)
    : azure_op (list Server.t)
| servers_list_by_resource_group (client : SqlManagementClient)
    (resource_group_name : string)
    : azure_op (list Server.t)
| servers_check_name_availability (client : SqlManagementClient)
    (parameters : CheckNameAvailabilityRequest.t)
    : azure_op CheckNameAvailabilityResponse.t
| servers_begin_create_or_update (client : SqlManagementClient)
    (resource_group_name server_name : string) (parameters : server_params)
    : azure_op (LROPoller Server.t)
| servers_get (client : SqlManagementClient)
    (resource_group_name server_name : string)
    : azure_op Server.t
| databases_list_by_server (client : SqlManagementClient)
    (resource_group_name server_name : string)
    : azure_op (list Database.t)
| databases_begin_create_or_update (client : SqlManagementClient)
    (resource_group_name server_name database_name : string)
    (parameters : db_params)
    : azure_op (LROPoller Database.t)
| lro_result {A : Type} (operation : LROPoller A)
    : azure_op A.

(** What lies outside the module: the cloud, the constructors of
    credentials and clients, the behaviour of the operations (a listing is
    one operation, its paging included), and the two runtime functions whose
    result depends on the interpreter: [json.loads] and [repr] of a [str]. *)
Class AzureSDK `{AzureTypes} : Type := {
  Cloud : Type;
  ClientSecretCredential :
    option string -> option string -> option string -> outcome Credential;
  DefaultAzureCredential : outcome Credential;
  new_SqlManagementClient :
    option Credential -> string -> outcome SqlManagementClient;
  new_ResourceManagementClient :
    option Credential -> string -> outcome ResourceManagementClient;
  perform : forall R : Type, azure_op R -> Cloud -> outcome R * Cloud;
  json_loads : string -> outcome Json.value;
  repr_str : string -> string
}.
Arguments perform {_ _} {R} op cloud.

(** ** The server *)

Section McpServer.
Context `{SDK : AzureSDK}.

(** The dataclass [AzureContext]; [AzureContext_new] is [AzureContext()]. *)
Record AzureContext : Type := {
  sql_client : option SqlManagementClient;
  resource_client : option ResourceManagementClient;
  subscription_id : option string;
  credential : option Credential
}.

Definition AzureContext_new : AzureContext :=
  {| sql_client := None; resource_client := None;
     subscription_id := None; credential := None |}.

(** One SDK call as the log keeps it: the operation and the fault it
    raised, if any. *)
Record call_record : Type := {
  call_op : { R : Type & azure_op R };
  call_raised : option exn
}.

(** The state a run threads: the context object the lifespan yields (one
    object, shared by every request), the cloud, the SDK calls made so far
    and the lines printed. *)
Record state : Type := {
  lifespan_context : AzureContext;
  cloud : Cloud;
  calls : list call_record;
  stdout : list string
}.

Definition M (A : Type) : Type := state -> outcome A * state.

Definition ret {A} (a : A) : M A := fun st => (Ok a, st).

Definition raise {A} (e : exn) : M A := fun st => (Raise e, st).

Definition bind {A B} (m : M A) (k : A -> M B) : M B :=
  fun st =>
    match m st with
    | (Ok a, st') => k a st'
    | (Raise e, st') => (Raise e, st')
    end.

Notation "'let*' x ':=' m 'in' k" := (bind m (fun x => k))
  (at level 10, x name, m at level 100, k at level 200).
Notation "m ';;;' k" := (bind m (fun _ => k))
  (at level 100, k at level 200, right associativity, only parsing).

(** [try: body  except Exception as e: handler e] *)
Definition try_except {A} (body : M A) (handler : exn -> M A) : M A :=
  fun st =>
    match body st with
    | (Ok a, st') => (Ok a, st')
    | (Raise e, st') => handler e st'
    end.

(** An expression that may raise. *)
Definition lift {A} (r : outcome A) : M A := fun st => (r, st).

Definition outcome_fault {A} (r : outcome A) : option exn :=
  match r with
  | Ok _ => None
  | Raise e => Some e
  end.

(** One call into the SDK: the cloud answers and moves on, the log grows. *)
Definition call {R} (op : azure_op R) : M R :=
  fun st =>
    let '(r, cloud') := perform op (cloud st) in
    (r, {| lifespan_context := lifespan_context st;
           cloud := cloud';
           calls := calls st ++
                    [{| call_op := existT R op; call_raised := outcome_fault r |}];
           stdout := stdout st |}).

Definition print (line : string) : M unit :=
  fun st =>
    (Ok tt, {| lifespan_context := lifespan_context st;
               cloud := cloud st;
               calls := calls st;
               stdout := stdout st ++ [line] |}).

(** [mcp.get_context().request_context.lifespan_context] *)
Definition get_lifespan_context : M AzureContext :=
  fun st => (Ok (lifespan_context st), st).

(** Attribute assignment on the context object. *)
Definition update_context (f : AzureContext -> AzureContext) : M unit :=
  fun st =>
    (Ok tt, {| lifespan_context := f (lifespan_context st);
               cloud := cloud st;
               calls := calls st;
               stdout := stdout st |}).

Definition set_credential (c : Credential) : M unit :=
  update_context (fun ctx =>
    {| sql_client := sql_client ctx; resource_client := resource_client ctx;
       subscription_id := subscription_id ctx; credential := Some c |}).

Definition set_subscription_id (s : string) : M unit :=
  update_context (fun ctx =>
    {| sql_client := sql_client ctx; resource_client := resource_client ctx;
       subscription_id := Some s; credential := credential ctx |}).

Definition set_sql_client (c : SqlManagementClient) : M unit :=
  update_context (fun ctx =>
    {| sql_client := Some c; resource_client := resource_client ctx;
       subscription_id := subscription_id ctx; credential := credential ctx |}).

Definition set_resource_client (c : ResourceManagementClient) : M unit :=
  update_context (fun ctx =>
    {| sql_client := sql_client ctx; resource_client := Some c;
       subscription_id := subscription_id ctx; credential := credential ctx |}).

(** A [for] loop whose body may raise, threading the loop's accumulator. *)
Fixpoint for_each {A B} (l : list A) (body : B -> A -> M B) (acc : B) : M B :=
  match l with
  | [] => ret acc
  | x :: l' => let* acc' := body acc x in for_each l' body acc'
  end.

(** *** Startup: [azure_lifespan] up to its [yield]

    The process environment is a map from names to values; [os.getenv] is
    lookup.  The context object under construction is the state's
    [lifespan_context], the object the [yield] hands to the server. *)
Definition getenv (environ : gmap string string) (name : string) : option string :=
  environ !! name.

Definition azure_lifespan (environ : gmap string string) : M unit :=
  update_context (fun _ => AzureContext_new) ;;;
  let subscription_id := getenv environ "AZURE_SUBSCRIPTION_ID" in
  let tenant_id := getenv environ "AZURE_TENANT_ID" in
  let client_id := getenv environ "AZURE_CLIENT_ID" in
  let client_secret := getenv environ "AZURE_CLIENT_SECRET" in
  match subscription_id with
  | Some sid =>
      if truthy_str sid then
        try_except
          ((if forallb truthy_opt_str [tenant_id; client_id; client_secret] then
              let* c := lift (ClientSecretCredential tenant_id client_id client_secret) in
              set_credential c ;;;
              print "Using Service Principal authentication"
            else
              let* c := lift DefaultAzureCredential in
              set_credential c ;;;
              print "Using Default Azure credential") ;;;
           set_subscription_id sid ;;;
           let* context := get_lifespan_context in
           let* sql := lift (new_SqlManagementClient (credential context) sid) in
           set_sql_client sql ;;;
           let* context := get_lifespan_context in
           let* res := lift (new_ResourceManagementClient (credential context) sid) in
           set_resource_client res ;;;
           print ("Connected to Azure subscription: " +:+ sid))
          (fun e =>
             print ("Warning: Could not initialize Azure clients: " +:+ str_exn e))
      else print "Warning: AZURE_SUBSCRIPTION_ID not set."
  | None => print "Warning: AZURE_SUBSCRIPTION_ID not set."
  end.

(** *** Tools *)

Definition not_initialized : string :=
  "Error: Azure client not initialized. Please check your credentials.".

Definition sql_not_initialized : string :=
  "Error: Azure SQL client not initialized. Please check your credentials.".

(** [str(d)] for a [Dict[str, str]]. *)
Definition str_dict (d : list (string * string)) : string :=
  "{" +:+ join ", " (map (fun kv => repr_str (fst kv) +:+ ": " +:+ repr_str (snd kv)) d)
      +:+ "}".

(** [rg.tags or 'None'], formatted. *)
Definition tags_or_None (tags : option (list (string * string))) : string :=
  match tags with
  | Some (kv :: d) => str_dict (kv :: d)
  | Some [] | None => "None"
  end.

Definition list_resource_groups : M string :=
  let* azure_ctx := get_lifespan_context in
  match resource_client azure_ctx with
  | None => ret not_initialized
  | Some client =>
      try_except
        (let* resource_groups := call (resource_groups_list client) in
         if negb (truthy_list resource_groups)
         then ret "No resource groups found in the subscription."
         else
           let result :=
             fold_left
               (fun result rg =>
                  result ++
                  [ "Name: " +:+ fmt (ResourceGroup.name rg);
                    "Location: " +:+ ResourceGroup.location rg;
                    "Tags: " +:+ tags_or_None (ResourceGroup.tags rg);
                    str_mul "-" 30 ])
               resource_groups
               [ "RESOURCE GROUPS"; str_mul "=" 50 ] in
           ret (join nl result))
        (fun e => ret ("Failed to list resource groups: " +:+ str_exn e))
  end.

Definition tags_json_error : string := "Error: Tags must be valid JSON format".

Definition create_resource_group (name location : string) (tags : option string)
  : M string :=
  let* azure_ctx := get_lifespan_context in
  match resource_client azure_ctx with
  | None => ret not_initialized
  | Some client =>
      try_except
        (let create (tag_dict : Json.value) : M string :=
           let rg_params := {| rg_location := location; rg_tags := tag_dict |} in
           let* result := call (resource_groups_create_or_update client name rg_params) in
           ret ("Resource group '" +:+ name +:+ "' created successfully in " +:+ location)
         in
         match tags with
         | Some t =>
             if truthy_str t then
               match json_loads t with
               | Ok tag_dict => create tag_dict
               | Raise (JSONDecodeError _) => ret tags_json_error
               | Raise e => raise e
               end
             else create (Json.JObject [])
         | None => create (Json.JObject [])
         end)
        (fun e => ret ("Failed to create resource group: " +:+ str_exn e))
  end.

(** [server.id.split('/')[4]] *)
Definition resource_group_of_id (id : option string) : M string :=
  match id with
  | None =>
      raise (Exception "AttributeError" "'NoneType' object has no attribute 'split'")
  | Some s =>
      match split "/"%char s !! 4%nat with
      | Some g => ret g
      | None => raise (Exception "IndexError" "list index out of range")
      end
  end.

Definition list_sql_servers (resource_group : option string) : M string :=
  let* azure_ctx := get_lifespan_context in
  match sql_client azure_ctx with
  | None => ret sql_not_initialized
  | Some client =>
      try_except
        (let* servers :=
           match resource_group with
           | Some rg =>
               if truthy_str rg
               then call (servers_list_by_resource_group client rg)
               else call (servers_list client)
           | None => call (servers_list client)
           end in
         if negb (truthy_list servers) then
           let location_msg :=
             match resource_group with
             | Some rg =>
                 if truthy_str rg then " in resource group '" +:+ rg +:+ "'" else ""
             | None => ""
             end in
           ret ("No SQL servers found" +:+ location_msg +:+ ".")
         else
           let* result :=
             for_each servers
               (fun result server =>
                  let* group := resource_group_of_id (Server.id server) in
                  ret (result ++
                       [ "Name: " +:+ fmt (Server.name server);
                         "Location: " +:+ Server.location server;
                         "Resource Group: " +:+ group;
                         "State: " +:+ fmt (Server.state server);
                         "Version: " +:+ fmt (Server.version server);
                         "Admin Login: " +:+ fmt (Server.administrator_login server);
                         "Fully Qualified Domain Name: "
                           +:+ fmt (Server.fully_qualified_domain_name server);
                         str_mul "-" 50 ]))
               [ "SQL SERVERS"; str_mul "=" 50 ] in
           ret (join nl result))
        (fun e => ret ("Failed to list SQL servers: " +:+ str_exn e))
  end.

Definition truthy_opt_bool (x : option bool) : bool :=
  match x with
  | Some b => b
  | None => false
  end.

Definition create_sql_server
    (resource_group server_name location admin_login admin_password version : string)
  : M string :=
  let* azure_ctx := get_lifespan_context in
  match sql_client azure_ctx with
  | None => ret sql_not_initialized
  | Some client =>
      try_except
        (let availability_request :=
           {| CheckNameAvailabilityRequest.name := server_name;
              CheckNameAvailabilityRequest.type := "Microsoft.Sql/servers" |} in
         let* availability :=
           call (servers_check_name_availability client availability_request) in
         if negb (truthy_opt_bool (CheckNameAvailabilityResponse.available availability))
         then
           ret ("Server name '" +:+ server_name +:+ "' is not available: "
                  +:+ fmt (CheckNameAvailabilityResponse.message availability))
         else
           let server_params :=
             {| sp_location := location;
                sp_version := version;
                sp_administrator_login := admin_login;
                sp_administrator_login_password := admin_password |} in
           print ("Creating SQL server '" +:+ server_name
                    +:+ "'... This may take several minutes.") ;;;
           let* operation :=
             call (servers_begin_create_or_update client resource_group server_name
                     server_params) in
           let* server := call (lro_result operation) in
           let pad := str_mul " " 20 in
           ret ("SQL Server created successfully!" +:+ nl
                +:+ pad +:+ "Name: " +:+ fmt (Server.name server) +:+ nl
                +:+ pad +:+ "Location: " +:+ Server.location server +:+ nl
                +:+ pad +:+ "State: " +:+ fmt (Server.state server) +:+ nl
                +:+ pad +:+ "FQDN: " +:+ fmt (Server.fully_qualified_domain_name server) +:+ nl
                +:+ pad +:+ "Admin Login: " +:+ fmt (Server.administrator_login server) +:+ nl
                +:+ nl
                +:+ pad +:+ "Next steps:" +:+ nl
                +:+ pad +:+ "1. Configure firewall rules to allow connections" +:+ nl
                +:+ pad +:+ "2. Create databases on this server"))
        (fun e => ret ("Failed to create SQL server: " +:+ str_exn e))
  end.

(** [db.max_size_bytes or 'N/A'], formatted. *)
Definition max_size_or_NA (x : option Z) : string :=
  match x with
  | Some n => if n =? 0 then "N/A" else pretty n
  | None => "N/A"
  end.

(** [db.creation_date or 'N/A'], formatted. *)
Definition creation_date_or_NA (x : option datetime) : string :=
  match x with
  | Some d => str_datetime d
  | None => "N/A"
  end.

Definition list_databases (resource_group server_name : string) : M string :=
  let* azure_ctx := get_lifespan_context in
  match sql_client azure_ctx with
  | None => ret sql_not_initialized
  | Some client =>
      try_except
        (let* databases :=
           call (databases_list_by_server client resource_group server_name) in
         if negb (truthy_list databases)
         then ret ("No databases found on server '" +:+ server_name +:+ "'.")
         else
           let result :=
             fold_left
               (fun result db =>
                  result ++
                  [ "Name: " +:+ fmt (Database.name db);
                    "Status: " +:+ fmt (Database.status db);
                    "Edition: " +:+
                      match Database.sku db with
                      | Some sku => fmt (Sku.tier sku)
                      | None => "N/A"
                      end;
                    "Service Objective: " +:+
                      match Database.sku db with
                      | Some sku => fmt (Sku.name sku)
                      | None =>
                          if truthy_opt_str (Database.current_service_objective_name db)
                          then fmt (Database.current_service_objective_name db)
                          else "N/A"
                      end;
                    "Max Size: " +:+ max_size_or_NA (Database.max_size_bytes db);
                    "Creation Date: " +:+ creation_date_or_NA (Database.creation_date db);
                    str_mul "-" 30 ])
               databases
               [ "DATABASES ON " +:+ server_name; str_mul "=" 50 ] in
           ret (join nl result))
        (fun e => ret ("Failed to list databases: " +:+ str_exn e))
  end.

Definition server_not_found (server_name resource_group : string) : string :=
  "SQL Server '" +:+ server_name +:+ "' not found in resource group '"
    +:+ resource_group +:+ "'.".

Definition create_database
    (resource_group server_name database_name edition service_objective : string)
  : M string :=
  let* azure_ctx := get_lifespan_context in
  match sql_client azure_ctx with
  | None => ret sql_not_initialized
  | Some client =>
      try_except
        (let* server_details := call (servers_get client resource_group server_name) in
         let server_location := Server.location server_details in
         let db_params :=
           {| db_location := server_location;
              db_sku := {| sku_name := service_objective; sku_tier := edition |} |} in
         print ("Creating database '" +:+ database_name +:+ "' on server '"
                  +:+ server_name +:+ "' in location '" +:+ server_location +:+ "'...") ;;;
         let* operation :=
           call (databases_begin_create_or_update client resource_group server_name
                   database_name db_params) in
         let* database := call (lro_result operation) in
         let pad := str_mul " " 16 in
         ret ("Database created successfully!" +:+ nl
              +:+ pad +:+ "Name: " +:+ fmt (Database.name database) +:+ nl
              +:+ pad +:+ "Location: " +:+ Database.location database +:+ nl
              +:+ pad +:+ "Edition: " +:+
                    match Database.sku database with
                    | Some sku => fmt (Sku.tier sku)
                    | None => "N/A"
                    end +:+ nl
              +:+ pad +:+ "Service Objective: " +:+
                    match Database.sku database with
                    | Some sku => fmt (Sku.name sku)
                    | None => "N/A"
                    end +:+ nl
              +:+ pad +:+ "Status: " +:+ fmt (Database.status database) +:+ nl
              +:+ pad +:+ "Creation Date: " +:+
                    match Database.creation_date database with
                    | Some d => str_datetime d
                    | None => "None"
                    end +:+ nl
              +:+ nl
              +:+ pad +:+ "Connection string format:" +:+ nl
              +:+ pad +:+ "Server=" +:+ server_name +:+ ".database.windows.net;Database="
                    +:+ database_name +:+ ";"))
        (fun e =>
           match e with
           | ResourceNotFoundError _ => ret (server_not_found server_name resource_group)
           | _ => ret ("Failed to create database: " +:+ str_exn e)
           end)
  end.

(** *** Resources *)

Definition get_subscription_info : M string :=
  let* azure_ctx := get_lifespan_context in
  match subscription_id azure_ctx with
  | Some sid =>
      if truthy_str sid then ret ("Azure Subscription ID: " +:+ sid)
      else ret "No Azure subscription configured"
  | None => ret "No Azure subscription configured"
  end.

Definition get_all_servers : M string := list_sql_servers None.

(** *** The prompt *)

Definition suggestions : gmap (string * string) (string * string) :=
  {[ ("low", "small") := ("Basic", "Basic");
     ("low", "medium") := ("Standard", "S1");
     ("medium", "medium") := ("Standard", "S2");
     ("high", "large") := ("Premium", "P1") ]}.

(** [suggestions.get(key, ("Standard", "S1"))] for the key of the arguments. *)
Definition recommendation (expected_load data_size : string) : string * string :=
  let key := (lower expected_load, lower data_size) in
  default ("Standard", "S1") (suggestions !! key).

Definition database_creation_prompt (purpose expected_load data_size : string)
  : string :=
  let '(edition, service_obj) := recommendation expected_load data_size in
  let pad := str_mul " " 12 in
  nl
  +:+ pad +:+ "I need to create an Azure SQL database for: " +:+ purpose +:+ nl
  +:+ nl
  +:+ pad +:+ "Based on your requirements:" +:+ nl
  +:+ pad +:+ "- Expected load: " +:+ expected_load +:+ nl
  +:+ pad +:+ "- Data size: " +:+ data_size +:+ nl
  +:+ nl
  +:+ pad +:+ "Recommended configuration:" +:+ nl
  +:+ pad +:+ "- Edition: " +:+ edition +:+ nl
  +:+ pad +:+ "- Service Objective: " +:+ service_obj +:+ nl
  +:+ nl
  +:+ pad +:+ "Steps to create:" +:+ nl
  +:+ pad +:+ "1. Ensure you have a resource group" +:+ nl
  +:+ pad +:+ "2. Create or use an existing SQL server" +:+ nl
  +:+ pad +:+ "3. Create the database with recommended settings" +:+ nl
  +:+ pad +:+ "4. Configure firewall rules for access" +:+ nl
  +:+ pad +:+ "5. Set up connection strings" +:+ nl
  +:+ pad.

(** *** Requests

    What the transport can ask of the registered tools, resources and
    prompt.  An omitted optional argument is [None] and takes the default
    of the function's signature. *)
Inductive request : Type :=
| tool_list_resource_groups
| tool_create_resource_group (name location : string) (tags : option string)
| tool_list_sql_servers (resource_group : option string)
| tool_create_sql_server
    (resource_group server_name location admin_login admin_password : string)
    (version : option string)
| tool_list_databases (resource_group server_name : string)
| tool_create_database (resource_group server_name database_name : string)
    (edition service_objective : option string)
| resource_subscription
| resource_servers
| prompt_database_creation (purpose : string)
    (expected_load data_size : option string).

Definition is_tool (r : request) : bool :=
  match r with
  | resource_subscription | resource_servers | prompt_database_creation _ _ _ => false
  | _ => true
  end.

Definition handle (r : request) : M string :=
  match r with
  | tool_list_resource_groups => list_resource_groups
  | tool_create_resource_group name location tags =>
      create_resource_group name location tags
  | tool_list_sql_servers resource_group => list_sql_servers resource_group
  | tool_create_sql_server rg server_name location admin_login admin_password version =>
      create_sql_server rg server_name location admin_login admin_password
        (default "12.0" version)
  | tool_list_databases rg server_name => list_databases rg server_name
  | tool_create_database rg server_name database_name edition service_objective =>
      create_database rg server_name database_name
        (default "Basic" edition) (default "Basic" service_objective)
  | resource_subscription => get_subscription_info
  | resource_servers => get_all_servers
  | prompt_database_creation purpose expected_load data_size =>
      ret (database_creation_prompt purpose
             (default "low" expected_load) (default "small" data_size))
  end.

(** The requests of a run, one after the other, each on the state the
    previous one left. *)
Fixpoint serve (rs : list request) (st : state) : list (outcome string) * state :=
  match rs with
  | [] => ([], st)
  | r :: rs' =>
      let '(res, st') := handle r st in
      let '(results, st'') := serve rs' st' in
      (res :: results, st'')
  end.

(** The state a process starts in, and the state its requests see: the one
    [azure_lifespan] leaves. *)
Definition boot (world : Cloud) : state :=
  {| lifespan_context := AzureContext_new; cloud := world; calls := []; stdout := [] |}.

Definition startup (environ : gmap string string) (world : Cloud) : state :=
  snd (azure_lifespan environ (boot world)).

End McpServer.

(** ** A test double of the SDK

    An in-memory cloud with resource groups, servers and databases, used
    for the runs the development evaluates.  Credentials and clients are
    names; a poller holds the outcome of its operation; [repr] of a [str]
    is taken for the plain strings the runs use (no quote, backslash or
    unprintable character). *)

Module Stub.

Instance types : AzureTypes := {
  Credential := string;
  SqlManagementClient := string;
  ResourceManagementClient := string;
  LROPoller := outcome
}.

Record cloud : Type := {
  groups : list ResourceGroup.t;
  servers : list Server.t;
  databases : list (string * string * Database.t)
}.

(** Which constructors of the startup fail. *)
Record config : Type := {
  credential_fails : bool;
  sql_client_fails : bool;
  resource_client_fails : bool
}.

Definition healthy : config :=
  {| credential_fails := false; sql_client_fails := false;
     resource_client_fails := false |}.

Definition construct (fails : bool) (what : string) (handle : string) : outcome string :=
  if fails then Raise (Exception "ValueError" ("cannot construct " +:+ what))
  else Ok handle.

Definition server_id (subscription resource_group name : string) : string :=
  "/subscriptions/" +:+ subscription +:+ "/resourceGroups/" +:+ resource_group
    +:+ "/providers/Microsoft.Sql/servers/" +:+ name.

Definition group_of (s : Server.t) : option string :=
  match Server.id s with
  | Some i => split "/"%char i !! 4%nat
  | None => None
  end.

Definition has_group (w : cloud) (g : string) : bool :=
  existsb (fun rg => bool_decide (ResourceGroup.name rg = Some g)) (groups w).

Definition in_group (g : string) (s : Server.t) : bool :=
  bool_decide (group_of s = Some g).

Definition find_server (w : cloud) (g name : string) : option Server.t :=
  List.find (fun s => in_group g s && bool_decide (Server.name s = Some name)) (servers w).

Definition string_tags (v : Json.value) : option (list (string * string)) :=
  match v with
  | Json.JObject pairs =>
      Some (flat_map (fun kv => match snd kv with
                                | Json.JString s => [(fst kv, s)]
                                | _ => []
                                end) pairs)
  | _ => None
  end.

Definition group_missing {A} (g : string) : outcome A :=
  Raise (ResourceNotFoundError ("Resource group '" +:+ g +:+ "' could not be found.")).

Definition server_missing_error (name : string) : exn :=
  ResourceNotFoundError
    ("The requested resource of type 'Microsoft.Sql/servers' with name '"
       +:+ name +:+ "' was not found.").

Definition server_missing {A} (name : string) : outcome A :=
  Raise (server_missing_error name).

(** What the in-memory cloud answers to an operation. *)
Definition answer (R : Type) (op : azure_op R) (w : cloud) : outcome R * cloud :=
  match op in azure_op R return outcome R * cloud with
  | resource_groups_list _ => (Ok (groups w), w)
  | resource_groups_create_or_update _ name params =>
      let rg := {| ResourceGroup.name := Some name;
                   ResourceGroup.location := rg_location params;
                   ResourceGroup.tags := string_tags (rg_tags params) |} in
      (Ok rg, {| groups := groups w ++ [rg]; servers := servers w;
                 databases := databases w |})
  | servers_list _ => (Ok (servers w), w)
  | servers_list_by_resource_group _ g =>
      if has_group w g then (Ok (filter (fun s => in_group g s = true) (servers w)), w)
      else (group_missing g, w)
  | servers_check_name_availability _ req =>
      let name := CheckNameAvailabilityRequest.name req in
      if existsb (fun s => bool_decide (Server.name s = Some name)) (servers w)
      then (Ok {| CheckNameAvailabilityResponse.available := Some false;
                  CheckNameAvailabilityResponse.message :=
                    Some "Specified server name is already used." |}, w)
      else (Ok {| CheckNameAvailabilityResponse.available := Some true;
                  CheckNameAvailabilityResponse.message := None |}, w)
  | servers_begin_create_or_update client g name params =>
      if has_group w g then
        let s := {| Server.id := Some (server_id client g name);
                    Server.name := Some name;
                    Server.location := sp_location params;
                    Server.state := Some "Ready";
                    Server.version := Some (sp_version params);
                    Server.administrator_login := Some (sp_administrator_login params);
                    Server.fully_qualified_domain_name :=
                      Some (name +:+ ".database.windows.net") |} in
        (Ok (Ok s), {| groups := groups w; servers := servers w ++ [s];
                       databases := databases w |})
      else (group_missing g, w)
  | servers_get _ g name =>
      match find_server w g name with
      | Some s => (Ok s, w)
      | None => (server_missing name, w)
      end
  | databases_list_by_server _ g name =>
      match find_server w g name with
      | Some _ =>
          (Ok (map snd (filter (fun d => d.1 = (g, name)) (databases w))), w)
      | None => (server_missing name, w)
      end
  | databases_begin_create_or_update _ g name db params =>
      match find_server w g name with
      | Some _ =>
          let d := {| Database.name := Some db;
                      Database.location := db_location params;
                      Database.status := Some "Online";
                      Database.sku := Some {| Sku.name := Some (sku_name (db_sku params));
                                              Sku.tier := Some (sku_tier (db_sku params)) |};
                      Database.current_service_objective_name :=
                        Some (sku_name (db_sku params));
                      Database.max_size_bytes := Some 2147483648;
                      Database.creation_date :=
                        Some {| str_datetime := "2024-01-01 00:00:00+00:00" |} |} in
          (Ok (Ok d), {| groups := groups w; servers := servers w;
                         databases := databases w ++ [(g, name, d)] |})
      | None => (server_missing name, w)
      end
  | lro_result operation => (operation, w)
  end.

Definition sdk (cfg : config) : AzureSDK := {|
  Cloud := cloud;
  ClientSecretCredential := fun _ _ _ =>
    construct (credential_fails cfg) "credential" "service-principal";
  DefaultAzureCredential := construct (credential_fails cfg) "credential" "default";
  new_SqlManagementClient := fun _ sid =>
    construct (sql_client_fails cfg) "SqlManagementClient" sid;
  new_ResourceManagementClient := fun _ sid =>
    construct (resource_client_fails cfg) "ResourceManagementClient" sid;
  perform := answer;
  json_loads := Json.loads;
  repr_str := fun s => "'" +:+ s +:+ "'"
|}.

(** The same double under an interpreter with a nesting limit for the
    decoder. *)
Definition sdk_within (limit : nat) : AzureSDK := {|
  Cloud := cloud;
  ClientSecretCredential := fun _ _ _ => Ok "service-principal";
  DefaultAzureCredential := Ok "default";
  new_SqlManagementClient := fun _ sid => Ok sid;
  new_ResourceManagementClient := fun _ sid => Ok sid;
  perform := answer;
  json_loads := Json.loads_within limit;
  repr_str := fun s => "'" +:+ s +:+ "'"
|}.

End Stub.

(** ** What a run is observed by *)

Section Observations.
Context `{SDK : AzureSDK}.

(** The SDK calls made between two states of one run. *)
Definition calls_since (st st' : state) : list call_record :=
  drop (length (calls st)) (calls st').

(** A call that creates a server: [servers.begin_create_or_update]. *)
Definition is_server_create (c : call_record) : bool :=
  match projT2 (call_op c) with
  | servers_begin_create_or_update _ _ _ _ => true
  | _ => false
  end.

(** A call that creates a database: [databases.begin_create_or_update]. *)
Definition is_database_create (c : call_record) : bool :=
  match projT2 (call_op c) with
  | databases_begin_create_or_update _ _ _ _ _ => true
  | _ => false
  end.

(** The name-availability check for [name]. *)
Definition is_availability_check (name : string) (c : call_record) : bool :=
  match projT2 (call_op c) with
  | servers_check_name_availability _ req =>
      String.eqb (CheckNameAvailabilityRequest.name req) name
      && String.eqb (CheckNameAvailabilityRequest.type req) "Microsoft.Sql/servers"
  | _ => false
  end.

(** The text a tool answers with when its client handle is absent. *)
Definition not_initialized_text (r : request) : string :=
  match r with
  | tool_list_resource_groups | tool_create_resource_group _ _ _ => not_initialized
  | _ => sql_not_initialized
  end.

(** What the text of a tool is after one of its SDK calls raised [e]: the
    server-not-found message for [ResourceNotFoundError] in
    [create_database], a text that begins with "Failed to " otherwise. *)
Definition fault_text (r : request) (e : exn) (text : string) : Prop :=
  match r, e with
  | tool_create_database resource_group server_name _ _ _, ResourceNotFoundError _ =>
      text = server_not_found server_name resource_group
  | _, _ => startswith text "Failed to " = true
  end.

(** The credential the startup constructs for an environment. *)
Definition chosen_credential (environ : gmap string string) : outcome Credential :=
  if forallb truthy_opt_str
       [getenv environ "AZURE_TENANT_ID"; getenv environ "AZURE_CLIENT_ID";
        getenv environ "AZURE_CLIENT_SECRET"]
  then ClientSecretCredential (getenv environ "AZURE_TENANT_ID")
         (getenv environ "AZURE_CLIENT_ID") (getenv environ "AZURE_CLIENT_SECRET")
  else DefaultAzureCredential.

(** The handle a constructor left in the context: none if it raised. *)
Definition handle_of {A} (r : outcome A) : option A :=
  match r with
  | Ok a => Some a
  | Raise _ => None
  end.

Definition raised {A} (r : outcome A) : Prop :=
  match r with
  | Ok _ => False
  | Raise _ => True
  end.

(** The client handle a request needs is absent from the context. *)
Definition client_absent (r : request) (ctx : AzureContext) : bool :=
  match r with
  | tool_list_resource_groups | tool_create_resource_group _ _ _ =>
      match resource_client ctx with None => true | Some _ => false end
  | tool_list_sql_servers _ | tool_create_sql_server _ _ _ _ _ _
  | tool_list_databases _ _ | tool_create_database _ _ _ _ _ | resource_servers =>
      match sql_client ctx with None => true | Some _ => false end
  | resource_subscription | prompt_database_creation _ _ _ => false
  end.

(** A call that changes the subscription: a create or an update. *)
Definition is_write (c : call_record) : bool :=
  match projT2 (call_op c) with
  | resource_groups_create_or_update _ _ _
  | servers_begin_create_or_update _ _ _ _
  | databases_begin_create_or_update _ _ _ _ _ => true
  | _ => false
  end.

(** The requests that only read: the listing tools, the resources and the
    prompt. *)
Definition reads_only (r : request) : bool :=
  match r with
  | tool_create_resource_group _ _ _ | tool_create_sql_server _ _ _ _ _ _
  | tool_create_database _ _ _ _ _ => false
  | _ => true
  end.

(** The most SDK calls one request makes. *)
Definition max_calls (r : request) : nat :=
  match r with
  | tool_create_sql_server _ _ _ _ _ _ | tool_create_database _ _ _ _ _ => 3
  | resource_subscription | prompt_database_creation _ _ _ => 0
  | _ => 1
  end.

(** The lines [list_sql_servers] shows for a server of resource group [g]. *)
Definition server_block (g : string) (server : Server.t) : list string :=
  [ "Name: " +:+ fmt (Server.name server);
    "Location: " +:+ Server.location server;
    "Resource Group: " +:+ g;
    "State: " +:+ fmt (Server.state server);
    "Version: " +:+ fmt (Server.version server);
    "Admin Login: " +:+ fmt (Server.administrator_login server);
    "Fully Qualified Domain Name: " +:+ fmt (Server.fully_qualified_domain_name server);
    str_mul "-" 50 ].

(** The fifth part of an id, if it has an id with five parts. *)
Definition id_group (server : Server.t) : option string :=
  match Server.id server with
  | Some s => split "/"%char s !! 4%nat
  | None => None
  end.

(** The listing call [list_sql_servers] makes for its argument: by
    resource group when one is given and non-empty, subscription-wide
    otherwise. *)
Definition servers_listing (client : SqlManagementClient)
    (resource_group : option string) : azure_op (list Server.t) :=
  match resource_group with
  | Some g =>
      if truthy_str g then servers_list_by_resource_group client g
      else servers_list client
  | None => servers_list client
  end.

(** The parameters [create_sql_server] sends for its arguments. *)
Definition server_params_of (location version admin_login admin_password : string)
  : server_params :=
  {| sp_location := location;
     sp_version := version;
     sp_administrator_login := admin_login;
     sp_administrator_login_password := admin_password |}.

End Observations.

(** A text without the separator [c]. *)
Fixpoint free_of (c : ascii) (s : string) : bool :=
  match s with
  | EmptyString => true
  | String a s' => negb (Ascii.eqb a c) && free_of c s'
  end.

(** ** The suggestion table as the specification words it

    A fixed table from (load, size) to (edition, service objective), matched
    without regard to letter case, with one fallback. *)

Module PromptSpec.

Definition is_upper (a : ascii) : bool :=
  let n := N_of_ascii a in ((65 <=? n) && (n <=? 90))%N.

(** Equal characters, or the two cases of one letter. *)
Definition same_char (a b : ascii) : bool :=
  Ascii.eqb a b
  || (is_upper a && (N_of_ascii b =? N_of_ascii a + 32)%N)
  || (is_upper b && (N_of_ascii a =? N_of_ascii b + 32)%N).

Fixpoint same_text (s t : string) : bool :=
  match s, t with
  | EmptyString, EmptyString => true
  | String a s', String b t' => same_char a b && same_text s' t'
  | _, _ => false
  end.

Definition table : list ((string * string) * (string * string)) :=
  [ (("low", "small"), ("Basic", "Basic"));
    (("low", "medium"), ("Standard", "S1"));
    (("medium", "medium"), ("Standard", "S2"));
    (("high", "large"), ("Premium", "P1")) ].

Definition fallback : string * string := ("Standard", "S1").

(** Every character, for facts checked character by character. *)
Definition all_ascii : list ascii := map ascii_of_nat (seq 0 256).

Definition lookup (expected_load data_size : string) : string * string :=
  match List.find (fun row => same_text expected_load row.1.1
                              && same_text data_size row.1.2) table with
  | Some row => row.2
  | None => fallback
  end.

End PromptSpec.

(** ** The runs the development evaluates *)

Module Scenario.

Definition dq : string := String "034"%char EmptyString.

Definition environ : gmap string string := {[ "AZURE_SUBSCRIPTION_ID" := "sub-1" ]}.

Definition empty_cloud : Stub.cloud :=
  {| Stub.groups := []; Stub.servers := []; Stub.databases := [] |}.

(** A subscription with one resource group, [rg1], holding one server,
    [srv1]. *)
Definition rg1 : ResourceGroup.t :=
  {| ResourceGroup.name := Some "rg1"; ResourceGroup.location := "eastus";
     ResourceGroup.tags := None |}.

Definition srv1 : Server.t :=
  {| Server.id := Some (Stub.server_id "sub-1" "rg1" "srv1");
     Server.name := Some "srv1";
     Server.location := "westeurope";
     Server.state := Some "Ready";
     Server.version := Some "12.0";
     Server.administrator_login := Some "dba";
     Server.fully_qualified_domain_name := Some "srv1.database.windows.net" |}.

Definition one_server : Stub.cloud :=
  {| Stub.groups := [rg1]; Stub.servers := [srv1]; Stub.databases := [] |}.

(** The state the requests see after a startup with the given failures. *)
Definition started (cfg : Stub.config) (env : gmap string string) (w : Stub.cloud)
  : @state Stub.types (Stub.sdk cfg) :=
  @startup Stub.types (Stub.sdk cfg) env w.

Definition ready : @state Stub.types (Stub.sdk Stub.healthy) :=
  started Stub.healthy environ one_server.

(** The state the requests see when the environment names no subscription. *)
Definition unconfigured : @state Stub.types (Stub.sdk Stub.healthy) :=
  started Stub.healthy ∅ one_server.

Definition resource_client_broken : Stub.config :=
  {| Stub.credential_fails := false; Stub.sql_client_fails := false;
     Stub.resource_client_fails := true |}.

Definition sql_client_broken : Stub.config :=
  {| Stub.credential_fails := false; Stub.sql_client_fails := true;
     Stub.resource_client_fails := false |}.

(** An environment with a service principal, and one with only its tenant. *)
Definition principal_environ : gmap string string :=
  {[ "AZURE_SUBSCRIPTION_ID" := "sub-1"; "AZURE_TENANT_ID" := "tenant-1";
     "AZURE_CLIENT_ID" := "app-1"; "AZURE_CLIENT_SECRET" := "s3cret" ]}.

Definition partial_environ : gmap string string :=
  {[ "AZURE_SUBSCRIPTION_ID" := "sub-1"; "AZURE_TENANT_ID" := "tenant-1" ]}.

Definition blank_environ : gmap string string :=
  {[ "AZURE_SUBSCRIPTION_ID" := "" ]}.

Definition credential_broken : Stub.config :=
  {| Stub.credential_fails := true; Stub.sql_client_fails := false;
     Stub.resource_client_fails := false |}.

(** A second, empty resource group beside [rg1]. *)
Definition rg2 : ResourceGroup.t :=
  {| ResourceGroup.name := Some "rg2"; ResourceGroup.location := "eastus";
     ResourceGroup.tags := None |}.

Definition two_groups : Stub.cloud :=
  {| Stub.groups := [rg1; rg2]; Stub.servers := [srv1]; Stub.databases := [] |}.

(** A server whose id has three parts only. *)
Definition odd_server : Server.t :=
  {| Server.id := Some "/servers/odd";
     Server.name := Some "odd";
     Server.location := "eastus";
     Server.state := None;
     Server.version := None;
     Server.administrator_login := None;
     Server.fully_qualified_domain_name := None |}.

Definition odd_cloud : Stub.cloud :=
  {| Stub.groups := [rg1]; Stub.servers := [srv1; odd_server];
     Stub.databases := [] |}.

(** The state of a started server under a decoder with a nesting limit. *)
Definition ready_within (limit : nat) : @state Stub.types (Stub.sdk_within limit) :=
  @startup Stub.types (Stub.sdk_within limit) environ one_server.

End Scenario.

(** ** Splitting and joining text *)

Lemma append_empty_r (s : string) : s +:+ "" = s.
Proof.
  induction s as [|a s IH]; [reflexivity|].
  change (String a (s +:+ "") = String a s). rewrite IH. reflexivity.
Qed.

Lemma rev_app_rev_app (p q r : string) :
  String.rev_app (String.rev_app p q) r = String.rev_app q (p +:+ r).
Proof.
  revert q r. induction p as [|a p IH]; intros q r; [reflexivity|].
  cbn [String.rev_app]. rewrite IH. reflexivity.
Qed.

Lemma rev_rev_app (p : string) : String.rev (String.rev_app p "") = p.
Proof.
  unfold String.rev. rewrite rev_app_rev_app. cbn [String.rev_app].
  apply append_empty_r.
Qed.

(** Up to the next separator, splitting only collects. *)
Lemma split_aux_free c p rest cur :
  free_of c p = true ->
  split_aux c (p +:+ rest) cur = split_aux c rest (String.rev_app p cur).
Proof.
  revert cur. induction p as [|a p IH]; intros cur Hfree; [reflexivity|].
  cbn [free_of] in Hfree. apply andb_prop in Hfree as [Ha Hp].
  change (String a p +:+ rest) with (String a (p +:+ rest)).
  cbn [split_aux String.rev_app].
  apply negb_true_iff in Ha. rewrite Ha. apply IH, Hp.
Qed.

(** Splitting what was joined from parts without the separator gives the
    parts back (the empty list of parts joins to the empty text, which
    splits into one empty part). *)
Lemma split_join c part parts :
  Forall (fun p => free_of c p = true) (part :: parts) ->
  split c (join (String c "") (part :: parts)) = part :: parts.
Proof.
  revert part. induction parts as [|next parts IH]; intros part Hfree.
  - cbn [join]. unfold split.
    rewrite <- (append_empty_r part) at 1.
    rewrite split_aux_free by (inversion Hfree; assumption).
    cbn [split_aux]. rewrite rev_rev_app. reflexivity.
  - inversion Hfree as [|? ? Hp Hrest]; subst.
    change (join (String c "") (part :: next :: parts))
      with (part +:+ String c (join (String c "") (next :: parts))).
    unfold split. rewrite split_aux_free by exact Hp.
    cbn [split_aux]. rewrite Ascii.eqb_refl, rev_rev_app.
    f_equal. apply IH, Hrest.
Qed.

(** ** Properties of the handlers, for every SDK *)

Section Properties.
Context `{SDK : AzureSDK}.

Lemma startswith_app (p s : string) : startswith (p +:+ s) p = true.
Proof.
  unfold startswith. induction p as [|a p IH].
  - destruct s; reflexivity.
  - change (String.prefix (String a p) (String a (p +:+ s)) = true).
    cbn [String.prefix].
    destruct (ascii_dec a a) as [_|Hne]; [exact IH | contradiction].
Qed.

(** A loop whose body leaves the state alone leaves the state alone. *)
Lemma for_each_frame {A B} (l : list A) (body : B -> A -> M B) :
  (forall acc x st, snd (body acc x st) = st) ->
  forall acc st, snd (for_each l body acc st) = st.
Proof.
  intros Hbody. induction l as [|x l IH]; intros acc st; [reflexivity|].
  cbn [for_each]. unfold bind.
  specialize (Hbody acc x st).
  destruct (body acc x st) as [[acc'|e] st1]; cbn in Hbody; subst st1;
    [apply IH | reflexivity].
Qed.

Lemma resource_group_of_id_frame id st : snd (resource_group_of_id id st) = st.
Proof.
  unfold resource_group_of_id. destruct id as [s|]; [|reflexivity].
  destruct (split _ s !! 4%nat); reflexivity.
Qed.

Lemma calls_since_refl st : calls_since st st = [].
Proof. unfold calls_since. apply drop_all. Qed.

Ltac unfold_tools :=
  unfold list_resource_groups, create_resource_group, list_sql_servers,
    create_sql_server, list_databases, create_database, get_subscription_info,
    get_all_servers, list_sql_servers in *.

Ltac unfold_monad :=
  unfold bind, ret, raise, try_except, lift, call, print, get_lifespan_context,
    update_context in *.

Ltac loop_body_frame :=
  let x := fresh "x" in let st0 := fresh "st0" in let F := fresh "F" in
  intros ? x st0; cbn beta;
  pose proof (resource_group_of_id_frame (Server.id x) st0) as F;
  destruct (resource_group_of_id (Server.id x) st0) as [[?|?] ?];
  cbn in F |- *; congruence.

(** A scrutinee that is a value at hand, not a computation still to run. *)
Ltac plain x :=
  lazymatch x with
  | context [perform _ _] => fail
  | context [for_each _ _ _ _] => fail
  | context [json_loads _] => fail
  | context [match _ with _ => _ end] => fail
  | _ => idtac
  end.

(** One step of a run: case analysis on the next thing the control flow of
    the handler depends on (the answer to an SDK call, the outcome of a
    loop, the decoder's result, a test on a value). *)
Ltac step :=
  match goal with
  | |- context [perform ?op ?w] =>
      let E := fresh "E" in
      destruct (perform op w) as [[?|?] ?] eqn:E
  | |- context [for_each ?l ?b ?a ?s] =>
      let F := fresh "F" in
      pose proof (for_each_frame l b ltac:(loop_body_frame) a s) as F;
      destruct (for_each l b a s) as [[?|?] ?]; cbn [snd] in F; subst
  | |- context [json_loads ?t] =>
      let E := fresh "E" in destruct (json_loads t) as [?|[]] eqn:E
  | |- context [match ?x with _ => _ end] =>
      plain x; let E := fresh "E" in destruct x eqn:E
  end;
  cbn [fst snd lifespan_context cloud calls stdout outcome_fault].

Ltac run :=
  unfold_tools; unfold_monad;
  cbn [fst snd lifespan_context cloud calls stdout outcome_fault];
  repeat step.

(** Bring the log of a finished run to the form [calls st ++ new]. *)
Ltac new_calls :=
  unfold calls_since in *; cbn [calls fst snd] in *;
  rewrite <- ?List.app_assoc in *;
  rewrite ?drop_app_length, ?drop_all in *; cbn [app] in *.

(** Which record of the log a hypothesis [In c new] speaks of. *)
Ltac pick_call :=
  repeat match goal with
  | H : _ \/ _ |- _ => destruct H
  | H : False |- _ => destruct H
  | H : {| call_op := _; call_raised := _ |} = ?x |- _ => subst x
  end.

(** No request writes to the context object. *)
Lemma handle_frame r st :
  lifespan_context (snd (handle r st)) = lifespan_context st.
Proof. destruct r; cbn [handle]; run; reflexivity. Qed.

(** Every request ends with a text; none raises. *)
Lemma handle_returns r st : exists text, fst (handle r st) = Ok text.
Proof. destruct r; cbn [handle]; run; eauto. Qed.

(** *** Faults of the SDK *)

(** C1, as the code has it: when an SDK call made by a tool raises a fault,
    the tool still returns a text and the fault goes no further.  The text
    begins with "Failed to ", except in [create_database] for a
    [ResourceNotFoundError], where it is the server-not-found message. *)
Theorem tool_fault_becomes_text r st c e :
  is_tool r = true ->
  In c (calls_since st (snd (handle r st))) ->
  call_raised c = Some e ->
  exists text, fst (handle r st) = Ok text /\ fault_text r e text.
Proof.
  intros Htool. destruct r; try discriminate Htool; cbn [handle]; run; new_calls.
  all: cbn [In]; intros Hin Hraised.
  all: pick_call; cbn [call_raised] in Hraised; try discriminate Hraised.
  all: eexists; split; [reflexivity|].
  all: inversion Hraised; subst; reflexivity.
Qed.

(** C8: when a call made by [create_database] raises
    [ResourceNotFoundError], the text names the server and the resource
    group; for any other fault it is "Failed to create database: " and the
    fault's message; the first is never of the second form. *)
Theorem create_database_not_found_message rg sn dn ed so st c e :
  In c (calls_since st (snd (create_database rg sn dn ed so st))) ->
  call_raised c = Some e ->
  fst (create_database rg sn dn ed so st)
  = Ok (match e with
        | ResourceNotFoundError _ =>
            "SQL Server '" +:+ sn +:+ "' not found in resource group '" +:+ rg +:+ "'."
        | _ => "Failed to create database: " +:+ str_exn e
        end)
  /\ (forall msg,
        "SQL Server '" +:+ sn +:+ "' not found in resource group '" +:+ rg +:+ "'."
        <> "Failed to create database: " +:+ msg).
Proof.
  intros Hin Hraised. split; [|intros msg Heq; discriminate Heq].
  revert Hin Hraised. run; new_calls.
  all: cbn [In]; intros Hin Hraised.
  all: pick_call; cbn [call_raised] in Hraised; try discriminate Hraised.
  all: inversion Hraised; subst; reflexivity.
Qed.

(** *** Startup *)

Lemma startup_without_subscription environ world :
  getenv environ "AZURE_SUBSCRIPTION_ID" = None ->
  lifespan_context (startup environ world) = AzureContext_new
  /\ calls (startup environ world) = []
  /\ cloud (startup environ world) = world.
Proof.
  intros Henv. unfold startup, azure_lifespan. rewrite Henv.
  unfold_monad. cbn. auto.
Qed.

(** C2, as the code has it: with a subscription id and a credential, a
    fault in the construction of either client does not fail the startup;
    the context has the subscription id and the credential, no
    resource-management client, and the sql-management client exactly when
    its own construction succeeded. *)
Theorem client_fault_degrades_startup environ world sid cred :
  getenv environ "AZURE_SUBSCRIPTION_ID" = Some sid ->
  truthy_str sid = true ->
  chosen_credential environ = Ok cred ->
  raised (new_SqlManagementClient (Some cred) sid)
  \/ raised (new_ResourceManagementClient (Some cred) sid) ->
  fst (azure_lifespan environ (boot world)) = Ok tt
  /\ subscription_id (lifespan_context (startup environ world)) = Some sid
  /\ resource_client (lifespan_context (startup environ world)) = None
  /\ sql_client (lifespan_context (startup environ world))
     = handle_of (new_SqlManagementClient (Some cred) sid)
  /\ credential (lifespan_context (startup environ world)) = Some cred.
Proof.
  intros Henv Hsid Hcred Hfault.
  unfold startup, azure_lifespan, chosen_credential in *.
  rewrite Henv, Hsid.
  unfold set_credential, set_subscription_id, set_sql_client, set_resource_client.
  unfold_monad.
  cbn [fst snd lifespan_context cloud calls stdout boot].
  destruct (forallb truthy_opt_str _); rewrite Hcred;
    cbn [fst snd lifespan_context cloud calls stdout credential subscription_id
           sql_client resource_client];
    destruct (new_SqlManagementClient (Some cred) sid) as [sql|e1];
    cbn [fst snd lifespan_context cloud calls stdout credential subscription_id
           sql_client resource_client handle_of raised] in *;
    try (destruct (new_ResourceManagementClient (Some cred) sid) as [res|e2];
         cbn [fst snd lifespan_context cloud calls stdout credential subscription_id
                sql_client resource_client handle_of raised] in * );
    try (destruct Hfault as [[]|[]]); auto.
Qed.

(** C3, as the code has it: when the environment has no subscription id,
    every tool returns its not-initialized text (one text for the two
    resource-group tools, another for the four SQL tools) and leaves the
    state as it was: no SDK call is made. *)
Theorem tools_not_initialized_without_subscription environ world r :
  getenv environ "AZURE_SUBSCRIPTION_ID" = None ->
  is_tool r = true ->
  handle r (startup environ world)
  = (Ok (not_initialized_text r), startup environ world)
  /\ calls (startup environ world) = [].
Proof.
  intros Henv Htool.
  destruct (startup_without_subscription environ world Henv) as (Hctx & Hcalls & _).
  split; [|exact Hcalls].
  destruct r; try discriminate Htool; cbn [handle not_initialized_text];
    unfold_tools; unfold_monad; rewrite Hctx; reflexivity.
Qed.

(** C4: the context a run starts with is the context every request of the
    run sees and the context the run ends with: [serve (take n rs)] is the
    run up to its [n]-th request. *)
Theorem context_never_mutated rs st n :
  lifespan_context (snd (serve (take n rs) st)) = lifespan_context st.
Proof.
  revert st n. induction rs as [|r rs IH]; intros st [|n]; try reflexivity.
  cbn [take serve].
  pose proof (handle_frame r st) as Hr.
  destruct (handle r st) as [res st1]. cbn [snd] in Hr.
  specialize (IH st1 n).
  destruct (serve (take n rs) st1) as [results st2]. cbn [snd] in *.
  congruence.
Qed.

(** *** The calls a tool makes *)

(** C5: in a run of [create_sql_server], every server-create call comes
    after a name-availability check for the server's name; and when the
    check reports the name unavailable, the text is the availability
    message and no server-create call is made. *)
Theorem create_sql_server_checks_name_first rg sn loc login pw ver st :
  let run := create_sql_server rg sn loc login pw ver st in
  let new := calls_since st (snd run) in
  (forall i c, new !! i = Some c -> is_server_create c = true ->
     exists j c0, (j < i)%nat /\ new !! j = Some c0
                  /\ is_availability_check sn c0 = true)
  /\ (forall client av w,
        sql_client (lifespan_context st) = Some client ->
        perform (servers_check_name_availability client
                   {| CheckNameAvailabilityRequest.name := sn;
                      CheckNameAvailabilityRequest.type := "Microsoft.Sql/servers" |})
          (cloud st) = (Ok av, w) ->
        truthy_opt_bool (CheckNameAvailabilityResponse.available av) = false ->
        fst run = Ok ("Server name '" +:+ sn +:+ "' is not available: "
                        +:+ fmt (CheckNameAvailabilityResponse.message av))
        /\ Forall (fun c => is_server_create c = false) new).
Proof.
  cbv zeta. split.
  - run; new_calls; intros i rec Hi Hc.
    all: destruct i as [|[|[|i]]]; cbn in Hi; try discriminate Hi.
    all: inversion Hi; subst rec; cbn in Hc; try discriminate Hc.
    all: exists 0%nat; eexists; split; [lia|]; split; [reflexivity|].
    all: cbn; rewrite String.eqb_refl; reflexivity.
  - intros client av w Hclient Hcheck Hav.
    unfold_tools; unfold_monad. rewrite Hclient, Hcheck, Hav.
    cbn [fst snd negb calls]. new_calls.
    split; [reflexivity|]. repeat constructor.
Qed.

(** C7: with its client present, [create_database] first gets the server;
    when that succeeds, the next call creates the database with the
    location of the server it got, and no other database-create call
    follows; when it fails, no further call is made.  The location is no
    argument of the tool. *)
Theorem create_database_uses_server_location rg sn dn ed so st client r w :
  sql_client (lifespan_context st) = Some client ->
  perform (servers_get client rg sn) (cloud st) = (r, w) ->
  let new := calls_since st (snd (create_database rg sn dn ed so st)) in
  match r with
  | Ok server =>
      exists r2 rest,
        new = {| call_op := existT _ (servers_get client rg sn);
                 call_raised := None |}
              :: {| call_op :=
                      existT _ (databases_begin_create_or_update client rg sn dn
                                  {| db_location := Server.location server;
                                     db_sku := {| sku_name := so; sku_tier := ed |} |});
                    call_raised := r2 |}
              :: rest
        /\ Forall (fun c => is_database_create c = false) rest
  | Raise e =>
      new = [ {| call_op := existT _ (servers_get client rg sn);
                 call_raised := Some e |} ]
  end.
Proof.
  intros Hclient Hget. cbv zeta.
  unfold_tools; unfold_monad. rewrite Hclient, Hget.
  cbn [fst snd lifespan_context cloud calls stdout outcome_fault].
  destruct r as [server|e];
    cbn [fst snd lifespan_context cloud calls stdout outcome_fault].
  - repeat step; new_calls; do 2 eexists; (split; [reflexivity|]);
      repeat constructor.
  - destruct e; new_calls; reflexivity.
Qed.

(** C9, as the code has it: for a non-empty tags string that the decoder
    rejects with [JSONDecodeError], [create_resource_group] leaves the state
    as it was (no SDK call) and returns the JSON-format error text when its
    client is present, the not-initialized text when it is absent. *)
Theorem invalid_tags_rejected_without_call name location tags msg st :
  truthy_str tags = true ->
  json_loads tags = Raise (JSONDecodeError msg) ->
  create_resource_group name location (Some tags) st
  = (Ok (match resource_client (lifespan_context st) with
         | Some _ => "Error: Tags must be valid JSON format"
         | None => "Error: Azure client not initialized. Please check your credentials."
         end), st).
Proof.
  intros Htags Hloads. unfold_tools; unfold_monad.
  destruct (resource_client (lifespan_context st)); [|reflexivity].
  rewrite Htags, Hloads. reflexivity.
Qed.

(** *** More on the startup *)

Ltac run_startup :=
  unfold startup, azure_lifespan, set_credential, set_subscription_id,
    set_sql_client, set_resource_client in *;
  unfold_monad;
  cbn [fst snd lifespan_context cloud calls stdout boot credential
         subscription_id sql_client resource_client] in *.

Ltac startup_cases :=
  repeat (step;
          cbn [fst snd lifespan_context cloud calls stdout boot credential
                 subscription_id sql_client resource_client handle_of] in * ).

(** X1: whatever the environment and whatever the constructors do, the
    startup ends without a fault, makes no SDK call and leaves the cloud as
    it found it. *)
Theorem startup_never_fails_nor_calls environ world :
  fst (azure_lifespan environ (boot world)) = Ok tt
  /\ calls (startup environ world) = []
  /\ cloud (startup environ world) = world.
Proof. run_startup. startup_cases; auto. Qed.

(** X2: the context the startup yields is built in order: a
    resource-management client only with a sql-management client, a
    sql-management client only with the subscription id, and the
    subscription id, which is the non-empty one of the environment, only
    with a credential. *)
Theorem startup_context_is_layered environ world :
  let ctx := lifespan_context (startup environ world) in
  (is_Some (resource_client ctx) -> is_Some (sql_client ctx))
  /\ (is_Some (sql_client ctx) -> is_Some (subscription_id ctx))
  /\ (forall sid, subscription_id ctx = Some sid ->
        getenv environ "AZURE_SUBSCRIPTION_ID" = Some sid
        /\ truthy_str sid = true /\ is_Some (credential ctx)).
Proof.
  cbv zeta. run_startup. startup_cases.
  all: repeat split; intros;
    repeat match goal with Hs : is_Some _ |- _ => destruct Hs as [? Hs] end;
    unfold AzureContext_new in *;
    cbn [credential subscription_id sql_client resource_client] in *;
    simplify_eq; eauto.
Qed.

(** X3: when the credential and both clients are constructed, the context
    holds the subscription id of the environment, the credential, and the
    two clients built from that credential and that id; the last line
    printed names the subscription. *)
Theorem startup_connects environ world sid cred sql res :
  getenv environ "AZURE_SUBSCRIPTION_ID" = Some sid ->
  truthy_str sid = true ->
  chosen_credential environ = Ok cred ->
  new_SqlManagementClient (Some cred) sid = Ok sql ->
  new_ResourceManagementClient (Some cred) sid = Ok res ->
  lifespan_context (startup environ world)
  = {| sql_client := Some sql; resource_client := Some res;
       subscription_id := Some sid; credential := Some cred |}
  /\ last (stdout (startup environ world))
     = Some ("Connected to Azure subscription: " +:+ sid).
Proof.
  intros Henv Hsid Hcred Hsql Hres. unfold chosen_credential in Hcred.
  run_startup. rewrite Henv, Hsid.
  destruct (forallb truthy_opt_str _); rewrite Hcred;
    cbn [fst snd lifespan_context cloud calls stdout boot credential
           subscription_id sql_client resource_client];
    rewrite Hsql;
    cbn [fst snd lifespan_context cloud calls stdout boot credential
           subscription_id sql_client resource_client];
    rewrite Hres; split; reflexivity.
Qed.

(** X4: with a subscription id, the service-principal credential is the
    one constructed when the tenant id, the client id and the client secret
    are all set and non-empty; the context holds it if its construction
    succeeds. *)
Theorem service_principal_with_all_three environ world sid t c s :
  getenv environ "AZURE_SUBSCRIPTION_ID" = Some sid ->
  truthy_str sid = true ->
  getenv environ "AZURE_TENANT_ID" = Some t -> truthy_str t = true ->
  getenv environ "AZURE_CLIENT_ID" = Some c -> truthy_str c = true ->
  getenv environ "AZURE_CLIENT_SECRET" = Some s -> truthy_str s = true ->
  credential (lifespan_context (startup environ world))
  = handle_of (ClientSecretCredential (Some t) (Some c) (Some s))
  /\ (is_Some (credential (lifespan_context (startup environ world))) ->
      head (stdout (startup environ world))
      = Some "Using Service Principal authentication").
Proof.
  intros Henv Hsid Ht Ht' Hc Hc' Hs Hs'.
  run_startup. rewrite Henv, Hsid, Ht, Hc, Hs.
  cbn [forallb truthy_opt_str andb]. rewrite Ht', Hc', Hs'. cbn [andb].
  startup_cases; split; try reflexivity; intros [? [=]].
Qed.

(** X5: with a subscription id, when one of the tenant id, the client id
    and the client secret is unset or empty, the service-principal
    credential is not constructed: the credential is the default one. *)
Theorem default_credential_on_partial_set environ world sid :
  getenv environ "AZURE_SUBSCRIPTION_ID" = Some sid ->
  truthy_str sid = true ->
  truthy_opt_str (getenv environ "AZURE_TENANT_ID") = false
  \/ truthy_opt_str (getenv environ "AZURE_CLIENT_ID") = false
  \/ truthy_opt_str (getenv environ "AZURE_CLIENT_SECRET") = false ->
  credential (lifespan_context (startup environ world))
  = handle_of DefaultAzureCredential
  /\ (is_Some (credential (lifespan_context (startup environ world))) ->
      head (stdout (startup environ world))
      = Some "Using Default Azure credential").
Proof.
  intros Henv Hsid Hpartial.
  assert (forallb truthy_opt_str
            [getenv environ "AZURE_TENANT_ID"; getenv environ "AZURE_CLIENT_ID";
             getenv environ "AZURE_CLIENT_SECRET"] = false) as Hall.
  { cbn [forallb]. destruct Hpartial as [Hp|[Hp|Hp]]; rewrite Hp;
      rewrite ?andb_false_r; reflexivity. }
  run_startup. rewrite Henv, Hsid, Hall.
  startup_cases; split; try reflexivity; intros [? [=]].
Qed.

(** X6: a subscription id that is unset or empty gives the empty context
    and one warning line. *)
Theorem startup_without_usable_subscription environ world :
  truthy_opt_str (getenv environ "AZURE_SUBSCRIPTION_ID") = false ->
  lifespan_context (startup environ world) = AzureContext_new
  /\ stdout (startup environ world) = ["Warning: AZURE_SUBSCRIPTION_ID not set."].
Proof.
  intros Henv. run_startup.
  destruct (getenv environ "AZURE_SUBSCRIPTION_ID") as [sid|];
    cbn [truthy_opt_str] in Henv; [rewrite Henv|]; split; reflexivity.
Qed.

(** X7: when the construction of the credential raises, the context stays
    empty, the subscription id included, one warning carries the fault's
    message, and the subscription resource reports no subscription. *)
Theorem credential_fault_leaves_context_empty environ world sid e :
  getenv environ "AZURE_SUBSCRIPTION_ID" = Some sid ->
  truthy_str sid = true ->
  chosen_credential environ = Raise e ->
  lifespan_context (startup environ world) = AzureContext_new
  /\ stdout (startup environ world)
     = ["Warning: Could not initialize Azure clients: " +:+ str_exn e]
  /\ fst (get_subscription_info (startup environ world))
     = Ok "No Azure subscription configured".
Proof.
  intros Henv Hsid Hcred. unfold chosen_credential in Hcred.
  unfold get_subscription_info. run_startup. rewrite Henv, Hsid.
  destruct (forallb truthy_opt_str _); rewrite Hcred; repeat split; reflexivity.
Qed.

(** X8: once the credential is constructed, the subscription resource
    reports the subscription id of the environment, whether or not the
    clients could be constructed, and changes nothing. *)
Theorem subscription_info_after_startup environ world sid cred :
  getenv environ "AZURE_SUBSCRIPTION_ID" = Some sid ->
  truthy_str sid = true ->
  chosen_credential environ = Ok cred ->
  get_subscription_info (startup environ world)
  = (Ok ("Azure Subscription ID: " +:+ sid), startup environ world).
Proof.
  intros Henv Hsid Hcred. unfold chosen_credential in Hcred.
  unfold get_subscription_info. run_startup. rewrite Henv, Hsid.
  destruct (forallb truthy_opt_str _); rewrite Hcred;
    cbn [fst snd lifespan_context cloud calls stdout boot credential
           subscription_id sql_client resource_client];
    startup_cases; try discriminate Hsid; reflexivity.
Qed.

(** *** What every request does and does not do *)

(** X9: in any state, a request whose client handle is absent from the
    context returns its not-initialized text and changes nothing: it makes
    no SDK call. *)
Theorem absent_client_short_circuits r st :
  client_absent r (lifespan_context st) = true ->
  handle r st = (Ok (not_initialized_text r), st).
Proof.
  intros Habsent.
  destruct r; cbn [client_absent] in Habsent; try discriminate Habsent;
    cbn [handle not_initialized_text]; unfold_tools; unfold_monad;
    match goal with
    | |- context [resource_client ?c] => destruct (resource_client c)
    | |- context [sql_client ?c] => destruct (sql_client c)
    end; try discriminate Habsent; reflexivity.
Qed.

(** X10: a request makes at most [max_calls] SDK calls: none for the
    subscription resource and the prompt, at most three for
    [create_sql_server] and [create_database], at most one for the rest. *)
Theorem handle_call_budget r st :
  (length (calls_since st (snd (handle r st))) <= max_calls r)%nat.
Proof.
  destruct r; cbn [handle max_calls]; run; new_calls; cbn [length]; lia.
Qed.

(** X11: the listing tools, the resources and the prompt never make a
    call that creates or updates. *)
Theorem reads_never_write r st :
  reads_only r = true ->
  Forall (fun c => is_write c = false) (calls_since st (snd (handle r st))).
Proof.
  intros Hread. destruct r; try discriminate Hread; cbn [handle]; run; new_calls;
    repeat constructor.
Qed.

(** A request keeps the log and the printed lines: it only adds to them. *)
Lemma handle_appends r st :
  exists new out,
    calls (snd (handle r st)) = calls st ++ new
    /\ stdout (snd (handle r st)) = stdout st ++ out
    /\ (length new <= max_calls r)%nat.
Proof.
  destruct r; cbn [handle max_calls]; run;
    rewrite <- ?List.app_assoc; cbn [app];
    eexists _, _;
    (split; [first [reflexivity | symmetry; apply app_nil_r]|]);
    (split; [first [reflexivity | symmetry; apply app_nil_r]|]);
    cbn [length]; lia.
Qed.

(** A run of requests only adds to the call log and to the printed
    lines, and adds at most the sum of its requests' call budgets. *)
Theorem serve_only_appends rs st :
  exists new out,
    calls (snd (serve rs st)) = calls st ++ new
    /\ stdout (snd (serve rs st)) = stdout st ++ out
    /\ (length new <= sum_list (map max_calls rs))%nat.
Proof.
  revert st. induction rs as [|r rs IH]; intros st.
  - exists [], []. rewrite !app_nil_r. cbn. repeat split; lia.
  - change (sum_list (map max_calls (r :: rs)))
      with (max_calls r + sum_list (map max_calls rs))%nat.
    cbn [serve].
    destruct (handle_appends r st) as (new1 & out1 & Hc1 & Ho1 & Hn1).
    destruct (handle r st) as [res st1]. cbn [snd] in *.
    destruct (IH st1) as (new2 & out2 & Hc2 & Ho2 & Hn2).
    destruct (serve rs st1) as [results st2]. cbn [snd] in *.
    exists (new1 ++ new2), (out1 ++ out2).
    rewrite Hc2, Hc1, Ho2, Ho1, !List.app_assoc, length_app.
    repeat split; lia.
Qed.

(** *** The listing tools *)

(** X12: the resource group [list_sql_servers] shows for a server is the
    fifth part of its id when the id is parts joined by "/"; an id of
    fewer parts raises [IndexError]. *)
Theorem resource_group_of_id_parts parts st :
  Forall (fun p => free_of "/"%char p = true) parts ->
  resource_group_of_id (Some (join "/" parts)) st
  = (match parts !! 4%nat with
     | Some g => Ok g
     | None => Raise (Exception "IndexError" "list index out of range")
     end, st).
Proof.
  intros Hfree. unfold resource_group_of_id.
  destruct parts as [|part parts].
  - reflexivity.
  - rewrite (split_join "/"%char part parts Hfree).
    destruct ((part :: parts) !! 4%nat); reflexivity.
Qed.

Lemma resource_group_of_id_some s g st :
  id_group s = Some g -> resource_group_of_id (Server.id s) st = (Ok g, st).
Proof.
  unfold id_group, resource_group_of_id.
  destruct (Server.id s); [|discriminate]. intros ->. reflexivity.
Qed.

Lemma resource_group_of_id_none s st :
  id_group s = None ->
  exists msg,
    resource_group_of_id (Server.id s) st
    = (Raise (Exception (if String.eqb msg "list index out of range"
                         then "IndexError" else "AttributeError") msg), st)
    /\ (msg = "list index out of range"
        \/ msg = "'NoneType' object has no attribute 'split'").
Proof.
  unfold id_group, resource_group_of_id.
  destruct (Server.id s).
  - intros ->. eexists. split; [|left; reflexivity]. reflexivity.
  - intros _. eexists. split; [|right; reflexivity]. reflexivity.
Qed.

(** The loop of [list_sql_servers] over servers whose ids all have a fifth
    part: one block of lines per server, in order. *)
Lemma server_loop_ok servers acc st :
  Forall (fun s => is_Some (id_group s)) servers ->
  for_each servers
    (fun result server =>
       bind (resource_group_of_id (Server.id server))
         (fun group => ret (result ++ server_block group server)))
    acc st
  = (Ok (acc ++ concat (map (fun s => server_block (default "" (id_group s)) s)
                          servers)), st).
Proof.
  revert acc. induction servers as [|s servers IH]; intros acc Hok.
  - cbn. rewrite app_nil_r. reflexivity.
  - inversion Hok as [|? ? [g Hg] Hrest]; subst.
    cbn [for_each map concat]. do 2 unfold bind at 1.
    rewrite (resource_group_of_id_some s g st Hg), Hg. cbn [default].
    unfold ret at 1.
    rewrite (IH _ Hrest), <- List.app_assoc. reflexivity.
Qed.

(** The loop stops at the first server whose id has no fifth part. *)
Lemma server_loop_bad servers acc st :
  Exists (fun s => id_group s = None) servers ->
  exists msg,
    fst (for_each servers
           (fun result server =>
              bind (resource_group_of_id (Server.id server))
                (fun group => ret (result ++ server_block group server)))
           acc st)
    = Raise (Exception (if String.eqb msg "list index out of range"
                        then "IndexError" else "AttributeError") msg)
    /\ (msg = "list index out of range"
        \/ msg = "'NoneType' object has no attribute 'split'").
Proof.
  revert acc. induction servers as [|s servers IH]; intros acc Hbad.
  - inversion Hbad.
  - cbn [for_each]. do 2 unfold bind at 1.
    destruct (id_group s) as [g|] eqn:Hg.
    + rewrite (resource_group_of_id_some s g st Hg). unfold ret at 1.
      apply IH. inversion Hbad as [? ? Hs|]; subst; [congruence|assumption].
    + destruct (resource_group_of_id_none s st Hg) as (msg & Hrun & Hmsg).
      rewrite Hrun. exists msg. split; [reflexivity|exact Hmsg].
Qed.

(** The state after one SDK call that answered [r] and left the cloud [w]. *)
Ltac after_loop lemma hyp :=
  match goal with
  | |- context [for_each ?l _ ?acc ?s] =>
      let Hloop := fresh "Hloop" in
      pose proof (lemma l acc s hyp) as Hloop;
      unfold server_block at 1 in Hloop; unfold bind, ret in Hloop
  end.

(** X13: when the listing call answers with servers whose ids all have a
    fifth part, the text of [list_sql_servers] is the two header lines and
    then, for each server in the order of the answer, its block of eight
    lines, joined by newlines. *)
Theorem list_sql_servers_blocks rg st client server servers w :
  sql_client (lifespan_context st) = Some client ->
  perform (servers_listing client rg) (cloud st) = (Ok (server :: servers), w) ->
  Forall (fun s => is_Some (id_group s)) (server :: servers) ->
  fst (list_sql_servers rg st)
  = Ok (join nl
          ([ "SQL SERVERS"; str_mul "=" 50 ]
           ++ concat (map (fun s => server_block (default "" (id_group s)) s)
                        (server :: servers)))).
Proof.
  intros Hclient Hanswer Hok. unfold servers_listing in Hanswer.
  unfold list_sql_servers. unfold_monad. rewrite Hclient.
  destruct rg as [g|]; [destruct (truthy_str g)|]; rewrite Hanswer;
    cbn [fst snd truthy_list negb];
    after_loop server_loop_ok Hok; rewrite Hloop; reflexivity.
Qed.

(** X14: when the answer holds a server whose id is missing or has fewer
    than five parts, the whole listing is replaced by a text that begins
    "Failed to list SQL servers: ", with the message of the [IndexError] or
    of the [AttributeError]. *)
Theorem list_sql_servers_bad_id rg st client servers w :
  sql_client (lifespan_context st) = Some client ->
  perform (servers_listing client rg) (cloud st) = (Ok servers, w) ->
  Exists (fun s => id_group s = None) servers ->
  exists msg,
    fst (list_sql_servers rg st) = Ok ("Failed to list SQL servers: " +:+ msg)
    /\ (msg = "list index out of range"
        \/ msg = "'NoneType' object has no attribute 'split'").
Proof.
  intros Hclient Hanswer Hbad. unfold servers_listing in Hanswer.
  destruct servers as [|server servers]; [inversion Hbad|].
  unfold list_sql_servers. unfold_monad. rewrite Hclient.
  destruct rg as [g|]; [destruct (truthy_str g)|]; rewrite Hanswer;
    cbn [fst snd truthy_list negb];
    match goal with
    | |- context [for_each ?l _ ?acc ?s] =>
        destruct (server_loop_bad l acc s Hbad) as (msg & Hloop & Hmsg);
        unfold server_block at 1 in Hloop; unfold bind, ret in Hloop
    end;
    match goal with
    | |- context [for_each ?l ?b ?acc ?s] =>
        destruct (for_each l b acc s) as [o s'] eqn:Hrun
    end;
    cbn [fst snd] in *; subst o; exists msg; (split; [reflexivity|exact Hmsg]).
Qed.

(** X15: with a non-empty resource group the one call [list_sql_servers]
    makes is the listing by that group, and an empty answer gives the text
    that names the group. *)
Theorem list_sql_servers_filtered g st client r w :
  truthy_str g = true ->
  sql_client (lifespan_context st) = Some client ->
  perform (servers_list_by_resource_group client g) (cloud st) = (r, w) ->
  calls_since st (snd (list_sql_servers (Some g) st))
  = [ {| call_op := existT _ (servers_list_by_resource_group client g);
         call_raised := outcome_fault r |} ]
  /\ (r = Ok [] ->
      fst (list_sql_servers (Some g) st)
      = Ok ("No SQL servers found" +:+ (" in resource group '" +:+ g +:+ "'")
              +:+ ".")).
Proof.
  intros Hg Hclient Hanswer.
  unfold list_sql_servers. unfold_monad. rewrite Hclient, Hg, Hanswer.
  cbn [fst snd lifespan_context cloud calls stdout outcome_fault].
  split.
  - repeat step; new_calls; reflexivity.
  - intros ->. reflexivity.
Qed.

(** C10: [list_sql_servers] with the empty string as resource group is
    [list_sql_servers] without a resource group: the same text and the same
    effect.  The one call it makes (when its client is present) is the
    subscription-wide [servers.list], and its text is the listing of what
    that call answers: every server of the answer, whatever its group, in
    the blocks of [list_sql_servers]; "No SQL servers found." with no group
    named when the answer is empty; the fault's message after "Failed to
    list SQL servers: " when the call or a server's id fails. *)
Theorem list_sql_servers_empty_group_lists_all st :
  list_sql_servers (Some "") st = list_sql_servers None st
  /\ calls_since st (snd (list_sql_servers (Some "") st))
     = match sql_client (lifespan_context st) with
       | Some client =>
           [ {| call_op := existT _ (servers_list client);
                call_raised :=
                  outcome_fault (fst (perform (servers_list client) (cloud st))) |} ]
       | None => []
       end
  /\ (forall client r w,
        sql_client (lifespan_context st) = Some client ->
        perform (servers_list client) (cloud st) = (r, w) ->
        cloud (snd (list_sql_servers (Some "") st)) = w
        /\ match r with
           | Raise e =>
               fst (list_sql_servers (Some "") st)
               = Ok ("Failed to list SQL servers: " +:+ str_exn e)
           | Ok [] =>
               fst (list_sql_servers (Some "") st) = Ok "No SQL servers found."
           | Ok (server :: servers) =>
               (Forall (fun s => is_Some (id_group s)) (server :: servers) ->
                fst (list_sql_servers (Some "") st)
                = Ok (join nl
                        ([ "SQL SERVERS"; str_mul "=" 50 ]
                         ++ concat
                              (map (fun s =>
                                      server_block (default "" (id_group s)) s)
                                 (server :: servers)))))
               /\ (Exists (fun s => id_group s = None) (server :: servers) ->
                   exists msg,
                     fst (list_sql_servers (Some "") st)
                     = Ok ("Failed to list SQL servers: " +:+ msg)
                     /\ (msg = "list index out of range"
                         \/ msg = "'NoneType' object has no attribute 'split'"))
           end).
Proof.
  split; [reflexivity|].
  change (list_sql_servers (Some "") st) with (list_sql_servers None st).
  split; [run; new_calls; reflexivity|].
  intros client r w Hclient Hanswer.
  unfold list_sql_servers. unfold_monad. rewrite Hclient, Hanswer.
  cbn [fst snd lifespan_context cloud calls stdout outcome_fault].
  destruct r as [[|server servers]|e];
    cbn [fst snd lifespan_context cloud calls stdout truthy_list negb];
    [split; reflexivity| |split; reflexivity].
  split; [step; reflexivity|]. split.
  - intros Hok. after_loop server_loop_ok Hok. rewrite Hloop. reflexivity.
  - intros Hbad.
    match goal with
    | |- context [for_each ?l _ ?acc ?s] =>
        destruct (server_loop_bad l acc s Hbad) as (msg & Hloop & Hmsg);
        unfold server_block at 1 in Hloop; unfold bind, ret in Hloop
    end.
    match goal with
    | |- context [for_each ?l ?b ?acc ?s] =>
        destruct (for_each l b acc s) as [o s'] eqn:Hrun
    end.
    cbn [fst snd] in *. subst o. exists msg. split; [reflexivity|exact Hmsg].
Qed.

(** X16: when the subscription has no resource group, the text of
    [list_resource_groups] says so, after its one call. *)
Theorem list_resource_groups_empty st client w :
  resource_client (lifespan_context st) = Some client ->
  perform (resource_groups_list client) (cloud st) = (Ok [], w) ->
  fst (list_resource_groups st) = Ok "No resource groups found in the subscription."
  /\ calls_since st (snd (list_resource_groups st))
     = [ {| call_op := existT _ (resource_groups_list client);
            call_raised := None |} ].
Proof.
  intros Hclient Hanswer. unfold list_resource_groups. unfold_monad.
  rewrite Hclient, Hanswer. cbn [fst snd truthy_list negb]. new_calls.
  split; reflexivity.
Qed.

(** X17: when the server has no database, the text of [list_databases]
    names the server, after its one call, made for that group and server. *)
Theorem list_databases_empty rg sn st client w :
  sql_client (lifespan_context st) = Some client ->
  perform (databases_list_by_server client rg sn) (cloud st) = (Ok [], w) ->
  fst (list_databases rg sn st)
  = Ok ("No databases found on server '" +:+ sn +:+ "'.")
  /\ calls_since st (snd (list_databases rg sn st))
     = [ {| call_op := existT _ (databases_list_by_server client rg sn);
            call_raised := None |} ].
Proof.
  intros Hclient Hanswer. unfold list_databases. unfold_monad.
  rewrite Hclient, Hanswer. cbn [fst snd truthy_list negb]. new_calls.
  split; reflexivity.
Qed.

(** *** The creating tools *)

(** X18: with non-empty tags that the decoder accepts,
    [create_resource_group] makes one call, which carries the location and
    the decoded value as it is (an object or not); the text reports the
    creation, or the fault of that call after "Failed to create resource
    group: ". *)
Theorem create_resource_group_sends_decoded_tags name location tags v st client r w :
  resource_client (lifespan_context st) = Some client ->
  truthy_str tags = true ->
  json_loads tags = Ok v ->
  perform (resource_groups_create_or_update client name
             {| rg_location := location; rg_tags := v |}) (cloud st) = (r, w) ->
  calls_since st (snd (create_resource_group name location (Some tags) st))
  = [ {| call_op :=
           existT _ (resource_groups_create_or_update client name
                       {| rg_location := location; rg_tags := v |});
         call_raised := outcome_fault r |} ]
  /\ fst (create_resource_group name location (Some tags) st)
     = Ok (match r with
           | Ok _ => "Resource group '" +:+ name +:+ "' created successfully in "
                       +:+ location
           | Raise e => "Failed to create resource group: " +:+ str_exn e
           end).
Proof.
  intros Hclient Htags Hloads Hcall. unfold create_resource_group. unfold_monad.
  rewrite Hclient, Htags, Hloads, Hcall.
  cbn [fst snd lifespan_context cloud calls stdout outcome_fault].
  destruct r; new_calls; split; reflexivity.
Qed.

(** X19: without tags, or with the empty string as tags, the decoder is
    not consulted and the one call carries the empty dict. *)
Theorem create_resource_group_without_tags name location tags st client r w :
  resource_client (lifespan_context st) = Some client ->
  truthy_opt_str tags = false ->
  perform (resource_groups_create_or_update client name
             {| rg_location := location; rg_tags := Json.JObject [] |}) (cloud st)
  = (r, w) ->
  calls_since st (snd (create_resource_group name location tags st))
  = [ {| call_op :=
           existT _ (resource_groups_create_or_update client name
                       {| rg_location := location; rg_tags := Json.JObject [] |});
         call_raised := outcome_fault r |} ]
  /\ fst (create_resource_group name location tags st)
     = Ok (match r with
           | Ok _ => "Resource group '" +:+ name +:+ "' created successfully in "
                       +:+ location
           | Raise e => "Failed to create resource group: " +:+ str_exn e
           end).
Proof.
  intros Hclient Htags Hcall. unfold create_resource_group. unfold_monad.
  rewrite Hclient.
  destruct tags as [t|]; cbn [truthy_opt_str] in Htags; rewrite ?Htags, Hcall;
    cbn [fst snd lifespan_context cloud calls stdout outcome_fault];
    destruct r; new_calls; split; reflexivity.
Qed.

(** X20: when the decoder raises a fault that is no [JSONDecodeError],
    [create_resource_group] makes no call and its text is "Failed to create
    resource group: " and the fault's message, not the JSON-format text. *)
Theorem create_resource_group_decoder_fault name location tags e st client :
  resource_client (lifespan_context st) = Some client ->
  truthy_str tags = true ->
  json_loads tags = Raise e ->
  (forall msg, e <> JSONDecodeError msg) ->
  create_resource_group name location (Some tags) st
  = (Ok ("Failed to create resource group: " +:+ str_exn e), st).
Proof.
  intros Hclient Htags Hloads Hother. unfold create_resource_group. unfold_monad.
  rewrite Hclient, Htags, Hloads.
  destruct e; try reflexivity. exfalso. eapply Hother. reflexivity.
Qed.

(** X21: when the name is available, [create_sql_server] next begins the
    creation with the caller's group, name, location, version ("12.0" when
    omitted), login and password, after printing that it does, and then
    waits on the very operation the call returned, if it returned one. *)
Theorem create_sql_server_sends_arguments rg sn loc login pw ver st client av w1 r2 w2 :
  sql_client (lifespan_context st) = Some client ->
  perform (servers_check_name_availability client
             {| CheckNameAvailabilityRequest.name := sn;
                CheckNameAvailabilityRequest.type := "Microsoft.Sql/servers" |})
    (cloud st) = (Ok av, w1) ->
  truthy_opt_bool (CheckNameAvailabilityResponse.available av) = true ->
  perform (servers_begin_create_or_update client rg sn
             (server_params_of loc (default "12.0" ver) login pw)) w1 = (r2, w2) ->
  let st' := snd (handle (tool_create_sql_server rg sn loc login pw ver) st) in
  calls_since st st'
  = {| call_op :=
         existT _ (servers_check_name_availability client
                     {| CheckNameAvailabilityRequest.name := sn;
                        CheckNameAvailabilityRequest.type := "Microsoft.Sql/servers" |});
       call_raised := None |}
    :: {| call_op :=
            existT _ (servers_begin_create_or_update client rg sn
                        (server_params_of loc (default "12.0" ver) login pw));
          call_raised := outcome_fault r2 |}
    :: match r2 with
       | Ok operation =>
           [ {| call_op := existT _ (lro_result operation);
                call_raised :=
                  outcome_fault (fst (perform (lro_result operation) w2)) |} ]
       | Raise _ => []
       end
  /\ stdout st'
     = stdout st ++ [ "Creating SQL server '" +:+ sn
                        +:+ "'... This may take several minutes." ].
Proof.
  intros Hclient Hcheck Hav Hbegin. cbv zeta. unfold server_params_of in *.
  cbn [handle]. unfold create_sql_server. unfold_monad.
  rewrite Hclient, Hcheck, Hav.
  cbn [fst snd lifespan_context cloud calls stdout outcome_fault negb].
  rewrite Hbegin.
  cbn [fst snd lifespan_context cloud calls stdout outcome_fault].
  destruct r2 as [operation|e];
    cbn [fst snd lifespan_context cloud calls stdout outcome_fault];
    repeat step; new_calls; split; reflexivity.
Qed.

(** X22: the text [create_sql_server] returns, the lines it prints and the
    cloud it leaves do not depend on the administrator password, as long
    as the cloud answers the create call alike for the two passwords: the
    password goes into that call and nowhere else. *)
Theorem create_sql_server_password_stays_out rg sn loc login pw1 pw2 ver st :
  (forall client w,
     perform (servers_begin_create_or_update client rg sn
                (server_params_of loc ver login pw1)) w
     = perform (servers_begin_create_or_update client rg sn
                  (server_params_of loc ver login pw2)) w) ->
  fst (create_sql_server rg sn loc login pw1 ver st)
  = fst (create_sql_server rg sn loc login pw2 ver st)
  /\ stdout (snd (create_sql_server rg sn loc login pw1 ver st))
     = stdout (snd (create_sql_server rg sn loc login pw2 ver st))
  /\ cloud (snd (create_sql_server rg sn loc login pw1 ver st))
     = cloud (snd (create_sql_server rg sn loc login pw2 ver st)).
Proof.
  intros Hsame. unfold server_params_of in Hsame.
  unfold create_sql_server. unfold_monad.
  destruct (sql_client (lifespan_context st)) as [client|]; [|auto].
  destruct (perform (servers_check_name_availability client _) (cloud st))
    as [[av|e] w1];
    cbn [fst snd lifespan_context cloud calls stdout outcome_fault]; [|auto].
  destruct (negb _);
    cbn [fst snd lifespan_context cloud calls stdout outcome_fault]; [auto|].
  rewrite Hsame.
  repeat step; auto.
Qed.

(** X23: when the server is found and the creation begins,
    [create_database] waits on the very operation the create call
    returned: its log is the get, the create and the wait, in that order,
    and it prints one line, which names the server's location. *)
Theorem create_database_waits_for_its_operation rg sn dn ed so st client server w1
    operation w2 :
  sql_client (lifespan_context st) = Some client ->
  perform (servers_get client rg sn) (cloud st) = (Ok server, w1) ->
  perform (databases_begin_create_or_update client rg sn dn
             {| db_location := Server.location server;
                db_sku := {| sku_name := so; sku_tier := ed |} |}) w1
  = (Ok operation, w2) ->
  let st' := snd (create_database rg sn dn ed so st) in
  map call_op (calls_since st st')
  = [ existT _ (servers_get client rg sn);
      existT _ (databases_begin_create_or_update client rg sn dn
                  {| db_location := Server.location server;
                     db_sku := {| sku_name := so; sku_tier := ed |} |});
      existT _ (lro_result operation) ]
  /\ stdout st'
     = stdout st ++ [ "Creating database '" +:+ dn +:+ "' on server '" +:+ sn
                        +:+ "' in location '" +:+ Server.location server +:+ "'..." ].
Proof.
  intros Hclient Hget Hbegin. cbv zeta.
  unfold create_database. unfold_monad. rewrite Hclient, Hget.
  cbn [fst snd lifespan_context cloud calls stdout outcome_fault].
  rewrite Hbegin.
  cbn [fst snd lifespan_context cloud calls stdout outcome_fault].
  repeat step; new_calls; split; reflexivity.
Qed.

End Properties.

(** ** The prompt's recommendation *)

Lemma in_all_ascii a : In a PromptSpec.all_ascii.
Proof.
  rewrite <- (ascii_nat_embedding a). apply in_map, in_seq.
  pose proof (nat_ascii_bounded a). lia.
Qed.

(** Against a character that [lower] keeps, matching without regard to
    case is equality after [lower]. *)
Lemma same_char_lower a b :
  lower_ascii b = b ->
  PromptSpec.same_char a b = Ascii.eqb (lower_ascii a) b.
Proof.
  assert (forallb (fun a => forallb (fun b =>
            implb (Ascii.eqb (lower_ascii b) b)
              (Bool.eqb (PromptSpec.same_char a b) (Ascii.eqb (lower_ascii a) b)))
            PromptSpec.all_ascii) PromptSpec.all_ascii = true) as Hall
    by (vm_compute; reflexivity).
  intros Hb. rewrite forallb_forall in Hall.
  specialize (Hall a (in_all_ascii a)). rewrite forallb_forall in Hall.
  specialize (Hall b (in_all_ascii b)).
  rewrite Hb, Ascii.eqb_refl in Hall. cbn [implb] in Hall.
  apply Bool.eqb_prop in Hall. exact Hall.
Qed.

Lemma same_text_lower s k :
  lower k = k -> PromptSpec.same_text s k = String.eqb (lower s) k.
Proof.
  revert k. induction s as [|a s IH]; intros [|b k] Hk; try reflexivity.
  cbn [lower] in Hk. injection Hk as Hb Hk.
  cbn [PromptSpec.same_text lower String.eqb].
  rewrite same_char_lower by exact Hb. rewrite IH by exact Hk.
  destruct (Ascii.eqb (lower_ascii a) b); reflexivity.
Qed.

(** Comparing a key's two components is comparing the key. *)
Lemma key_eqb (k1 k2 a b : string) :
  String.eqb a k1 && String.eqb b k2
  = if decide ((k1, k2) = (a, b)) then true else false.
Proof.
  destruct (String.eqb_spec a k1), (String.eqb_spec b k2), (decide _);
    cbn; congruence.
Qed.

(** The dict lookup of the code is the table lookup of the specification. *)
Lemma recommendation_is_table_lookup l s :
  recommendation l s = PromptSpec.lookup l s.
Proof.
  unfold recommendation, PromptSpec.lookup, PromptSpec.table, suggestions.
  cbn [List.find fst snd].
  rewrite !same_text_lower by reflexivity.
  set (L := lower l). set (S := lower s).
  rewrite !lookup_insert, lookup_singleton, !key_eqb.
  repeat (destruct (decide _); [reflexivity|]). reflexivity.
Qed.

Lemma append_assoc (a b c : string) : (a +:+ b) +:+ c = a +:+ (b +:+ c).
Proof.
  induction a as [|x a IH]; [reflexivity|].
  change (String x ((a +:+ b) +:+ c) = String x (a +:+ (b +:+ c))).
  rewrite IH. reflexivity.
Qed.

Example lookup_low_small : PromptSpec.lookup "low" "small" = ("Basic", "Basic").
Proof. reflexivity. Qed.

Example lookup_low_medium : PromptSpec.lookup "Low" "MEDIUM" = ("Standard", "S1").
Proof. reflexivity. Qed.

Example lookup_medium_medium : PromptSpec.lookup "medium" "Medium" = ("Standard", "S2").
Proof. reflexivity. Qed.

Example lookup_high_large : PromptSpec.lookup "HIGH" "large" = ("Premium", "P1").
Proof. reflexivity. Qed.

Example lookup_other : PromptSpec.lookup "high" "small" = ("Standard", "S1").
Proof. reflexivity. Qed.

(** C6: for every load and size the prompt recommends the pair the fixed
    table gives for them, matched without regard to letter case, and
    ("Standard", "S1") when no row matches; the two appear in the prompt's
    text as its edition and service objective. *)
Theorem prompt_recommends_table_entry purpose l s :
  recommendation l s = PromptSpec.lookup l s
  /\ exists before after,
       database_creation_prompt purpose l s
       = before +:+ "- Edition: " +:+ (PromptSpec.lookup l s).1 +:+ nl
           +:+ str_mul " " 12 +:+ "- Service Objective: "
           +:+ (PromptSpec.lookup l s).2 +:+ nl +:+ after.
Proof.
  split; [apply recommendation_is_table_lookup|].
  unfold database_creation_prompt. rewrite recommendation_is_table_lookup.
  destruct (PromptSpec.lookup l s) as [edition service_obj]. cbn [fst snd].
  eexists (nl +:+ str_mul " " 12 +:+ "I need to create an Azure SQL database for: "
             +:+ purpose +:+ nl +:+ nl
             +:+ str_mul " " 12 +:+ "Based on your requirements:" +:+ nl
             +:+ str_mul " " 12 +:+ "- Expected load: " +:+ l +:+ nl
             +:+ str_mul " " 12 +:+ "- Data size: " +:+ s +:+ nl +:+ nl
             +:+ str_mul " " 12 +:+ "Recommended configuration:" +:+ nl
             +:+ str_mul " " 12), _.
  rewrite !append_assoc. reflexivity.
Qed.


(** Characters that match without regard to case lower to the same
    character. *)
Lemma same_char_lower_eq a b :
  PromptSpec.same_char a b = true -> lower_ascii a = lower_ascii b.
Proof.
  assert (forallb (fun a => forallb (fun b =>
            implb (PromptSpec.same_char a b)
              (Ascii.eqb (lower_ascii a) (lower_ascii b)))
            PromptSpec.all_ascii) PromptSpec.all_ascii = true) as Hall
    by (vm_compute; reflexivity).
  intros Hab. rewrite forallb_forall in Hall.
  specialize (Hall a (in_all_ascii a)). rewrite forallb_forall in Hall.
  specialize (Hall b (in_all_ascii b)).
  rewrite Hab in Hall. cbn [implb] in Hall.
  apply Ascii.eqb_eq. exact Hall.
Qed.

Lemma same_text_lower_eq s t :
  PromptSpec.same_text s t = true -> lower s = lower t.
Proof.
  revert t. induction s as [|a s IH]; intros [|b t] Hst; try discriminate Hst;
    [reflexivity|].
  cbn [PromptSpec.same_text] in Hst. apply andb_prop in Hst as [Hab Hst].
  cbn [lower]. rewrite (same_char_lower_eq a b Hab), (IH t Hst). reflexivity.
Qed.

(** X24: the recommendation does not change when the load and the size
    are written in another letter case. *)
Theorem recommendation_ignores_case l l' s s' :
  PromptSpec.same_text l l' = true ->
  PromptSpec.same_text s s' = true ->
  recommendation l s = recommendation l' s'.
Proof.
  intros Hl Hs. unfold recommendation.
  rewrite (same_text_lower_eq l l' Hl), (same_text_lower_eq s s' Hs).
  reflexivity.
Qed.

(** X25: whatever the load and the size, the recommendation is one of the
    four pairs of the table. *)
Theorem recommendation_in_table l s :
  In (recommendation l s)
    [ ("Basic", "Basic"); ("Standard", "S1"); ("Standard", "S2"); ("Premium", "P1") ].
Proof.
  rewrite recommendation_is_table_lookup.
  unfold PromptSpec.lookup, PromptSpec.table, PromptSpec.fallback.
  cbn [List.find fst snd].
  repeat (destruct (_ && _); [cbn; tauto|]). cbn; tauto.
Qed.


(** ** Runs against the test double *)

Example loads_empty : Json.loads "" = Raise (JSONDecodeError "Expecting value").
Proof. reflexivity. Qed.

Example loads_object :
  Json.loads ("{" +:+ Scenario.dq +:+ "Environment" +:+ Scenario.dq +:+ ": "
                +:+ Scenario.dq +:+ "Dev" +:+ Scenario.dq +:+ "}")
  = Ok (Json.JObject [("Environment", Json.JString "Dev")]).
Proof. reflexivity. Qed.

Example ready_context :
  sql_client (lifespan_context Scenario.ready) = Some "sub-1"
  /\ resource_client (lifespan_context Scenario.ready) = Some "sub-1"
  /\ subscription_id (lifespan_context Scenario.ready) = Some "sub-1"
  /\ credential (lifespan_context Scenario.ready) = Some "default".
Proof. repeat split; reflexivity. Qed.

(** C1 as stated fails: on a subscription without the server [ghost],
    [servers.get] raises [ResourceNotFoundError] inside [create_database],
    and the text returned does not begin with "Failed to ". *)
Lemma not_found_text_does_not_begin_with_Failed_to :
  map call_raised
    (calls_since Scenario.ready
       (snd (handle (tool_create_database "rg1" "ghost" "db1" None None)
               Scenario.ready)))
  = [ Some (ResourceNotFoundError
              "The requested resource of type 'Microsoft.Sql/servers' with name 'ghost' was not found.") ]
  /\ fst (handle (tool_create_database "rg1" "ghost" "db1" None None) Scenario.ready)
     = Ok "SQL Server 'ghost' not found in resource group 'rg1'."
  /\ startswith "SQL Server 'ghost' not found in resource group 'rg1'." "Failed to "
     = false.
Proof. vm_compute. repeat split; reflexivity. Qed.

(** A fault of [servers.list_by_resource_group] inside [list_sql_servers]
    becomes a text that begins with "Failed to ". *)
Lemma tool_fault_becomes_text_witness :
  exists text,
    fst (handle (tool_list_sql_servers (Some "nowhere")) Scenario.ready) = Ok text
    /\ fault_text (tool_list_sql_servers (Some "nowhere"))
         (ResourceNotFoundError "Resource group 'nowhere' could not be found.") text.
Proof.
  apply (tool_fault_becomes_text (tool_list_sql_servers (Some "nowhere"))
           Scenario.ready
           {| call_op := existT _ (@servers_list_by_resource_group Stub.types "sub-1" "nowhere");
              call_raised :=
                Some (ResourceNotFoundError
                        "Resource group 'nowhere' could not be found.") |}).
  - reflexivity.
  - vm_compute. left. reflexivity.
  - reflexivity.
Defined.

(** A [ResourceNotFoundError] of [servers.get] gives the message that names
    the server and the group. *)
Lemma create_database_not_found_message_witness :
  fst (create_database "rg1" "ghost" "db1" "Basic" "Basic" Scenario.ready)
  = Ok ("SQL Server '" +:+ "ghost" +:+ "' not found in resource group '" +:+ "rg1" +:+ "'.")
  /\ (forall msg,
        "SQL Server '" +:+ "ghost" +:+ "' not found in resource group '" +:+ "rg1" +:+ "'."
        <> "Failed to create database: " +:+ msg).
Proof.
  apply (create_database_not_found_message "rg1" "ghost" "db1" "Basic" "Basic"
           Scenario.ready
           {| call_op := existT _ (@servers_get Stub.types "sub-1" "rg1" "ghost");
              call_raised := Some (Stub.server_missing_error "ghost") |}
           (Stub.server_missing_error "ghost")).
  - vm_compute. left. reflexivity.
  - reflexivity.
Defined.

(** C2 as stated fails: when only the construction of the
    resource-management client raises, the sql-management client built
    before it stays in the context. *)
Lemma resource_client_fault_keeps_sql_client :
  new_ResourceManagementClient (AzureSDK := Stub.sdk Scenario.resource_client_broken)
    (Some "default") "sub-1"
  = Raise (Exception "ValueError" "cannot construct ResourceManagementClient")
  /\ sql_client (lifespan_context
                  (Scenario.started Scenario.resource_client_broken
                     Scenario.environ Scenario.empty_cloud)) = Some "sub-1"
  /\ resource_client (lifespan_context
                       (Scenario.started Scenario.resource_client_broken
                          Scenario.environ Scenario.empty_cloud)) = None
  /\ subscription_id (lifespan_context
                       (Scenario.started Scenario.resource_client_broken
                          Scenario.environ Scenario.empty_cloud)) = Some "sub-1".
Proof. vm_compute. repeat split; reflexivity. Qed.

(** A startup in which the construction of the sql-management client
    raises: both handles are absent and the subscription id is set. *)
Lemma client_fault_degrades_startup_witness :
  fst (azure_lifespan Scenario.environ
         (@boot Stub.types (Stub.sdk Scenario.sql_client_broken)
            Scenario.empty_cloud)) = Ok tt
  /\ subscription_id (lifespan_context
                       (Scenario.started Scenario.sql_client_broken
                          Scenario.environ Scenario.empty_cloud)) = Some "sub-1"
  /\ resource_client (lifespan_context
                       (Scenario.started Scenario.sql_client_broken
                          Scenario.environ Scenario.empty_cloud)) = None
  /\ sql_client (lifespan_context
                  (Scenario.started Scenario.sql_client_broken
                     Scenario.environ Scenario.empty_cloud)) = None
  /\ credential (lifespan_context
                  (Scenario.started Scenario.sql_client_broken
                     Scenario.environ Scenario.empty_cloud)) = Some "default".
Proof.
  apply (client_fault_degrades_startup (SDK := Stub.sdk Scenario.sql_client_broken)
           Scenario.environ Scenario.empty_cloud "sub-1" "default").
  - reflexivity.
  - reflexivity.
  - reflexivity.
  - left. exact I.
Defined.

(** C3 as stated fails: without a subscription id the resource-group tools
    and the SQL tools answer with two different texts. *)
Lemma not_initialized_texts_differ :
  fst (handle tool_list_resource_groups Scenario.unconfigured)
  = Ok "Error: Azure client not initialized. Please check your credentials."
  /\ fst (handle (tool_list_sql_servers None) Scenario.unconfigured)
     = Ok "Error: Azure SQL client not initialized. Please check your credentials."
  /\ fst (handle tool_list_resource_groups Scenario.unconfigured)
     <> fst (handle (tool_list_sql_servers None) Scenario.unconfigured).
Proof. vm_compute. repeat split; try reflexivity. discriminate. Qed.

(** Without a subscription id, [create_sql_server] answers with the
    not-initialized text of the SQL tools and calls nothing. *)
Lemma tools_not_initialized_without_subscription_witness :
  handle (tool_create_sql_server "rg1" "srv2" "eastus" "dba" "secret" None)
    Scenario.unconfigured
  = (Ok "Error: Azure SQL client not initialized. Please check your credentials.",
     Scenario.unconfigured)
  /\ calls Scenario.unconfigured = [].
Proof.
  apply (tools_not_initialized_without_subscription (SDK := Stub.sdk Stub.healthy)
           ∅ Scenario.one_server
           (tool_create_sql_server "rg1" "srv2" "eastus" "dba" "secret" None)).
  - reflexivity.
  - reflexivity.
Defined.

(** The name [srv1] is taken: the check says so, the text is the
    availability message and no server is created. *)
Lemma create_sql_server_checks_name_first_witness :
  fst (create_sql_server "rg1" "srv1" "eastus" "dba" "secret" "12.0" Scenario.ready)
  = Ok "Server name 'srv1' is not available: Specified server name is already used."
  /\ Forall (fun c => is_server_create c = false)
       (calls_since Scenario.ready
          (snd (create_sql_server "rg1" "srv1" "eastus" "dba" "secret" "12.0"
                  Scenario.ready))).
Proof.
  apply (proj2 (create_sql_server_checks_name_first "rg1" "srv1" "eastus" "dba"
                  "secret" "12.0" Scenario.ready)
           "sub-1"
           {| CheckNameAvailabilityResponse.available := Some false;
              CheckNameAvailabilityResponse.message :=
                Some "Specified server name is already used." |}
           Scenario.one_server).
  - reflexivity.
  - reflexivity.
  - reflexivity.
Defined.

(** The server [srv1] is in westeurope: the database is created there. *)
Lemma create_database_uses_server_location_witness :
  exists r2 rest,
    calls_since Scenario.ready
      (snd (create_database "rg1" "srv1" "db1" "Standard" "S1" Scenario.ready))
    = {| call_op := existT _ (@servers_get Stub.types "sub-1" "rg1" "srv1");
         call_raised := None |}
      :: {| call_op :=
              existT _ (@databases_begin_create_or_update Stub.types "sub-1" "rg1"
                          "srv1" "db1"
                          {| db_location := "westeurope";
                             db_sku := {| sku_name := "S1"; sku_tier := "Standard" |} |});
            call_raised := r2 |}
      :: rest
    /\ Forall (fun c => is_database_create c = false) rest.
Proof.
  apply (create_database_uses_server_location "rg1" "srv1" "db1" "Standard" "S1"
           Scenario.ready "sub-1" (Ok Scenario.srv1) Scenario.one_server).
  - reflexivity.
  - reflexivity.
Defined.

(** C9 as stated fails: the empty string is no JSON document, yet with it
    as tags the group is created, by one SDK call, with no tags. *)
Lemma empty_tags_are_not_rejected :
  Json.loads "" = Raise (JSONDecodeError "Expecting value")
  /\ fst (handle (tool_create_resource_group "rg2" "eastus" (Some "")) Scenario.ready)
     = Ok "Resource group 'rg2' created successfully in eastus"
  /\ calls_since Scenario.ready
       (snd (handle (tool_create_resource_group "rg2" "eastus" (Some ""))
               Scenario.ready))
     = [ {| call_op :=
              existT _ (@resource_groups_create_or_update Stub.types "sub-1" "rg2"
                          {| rg_location := "eastus"; rg_tags := Json.JObject [] |});
            call_raised := None |} ].
Proof. vm_compute. repeat split; reflexivity. Qed.

(** A tags string cut short is rejected before any call. *)
Lemma invalid_tags_rejected_without_call_witness :
  create_resource_group "rg2" "eastus" (Some "{oops") Scenario.ready
  = (Ok "Error: Tags must be valid JSON format", Scenario.ready).
Proof.
  apply (invalid_tags_rejected_without_call (SDK := Stub.sdk Stub.healthy)
           "rg2" "eastus" "{oops"
           "Expecting property name enclosed in double quotes" Scenario.ready).
  - reflexivity.
  - reflexivity.
Defined.

(** ** More runs against the test double *)

Lemma startup_connects_witness :
  lifespan_context (Scenario.started Stub.healthy Scenario.environ Scenario.one_server)
  = @Build_AzureContext Stub.types (Some "sub-1") (Some "sub-1") (Some "sub-1")
      (Some "default")
  /\ last (stdout (Scenario.started Stub.healthy Scenario.environ Scenario.one_server))
     = Some ("Connected to Azure subscription: " +:+ "sub-1").
Proof.
  apply (startup_connects (SDK := Stub.sdk Stub.healthy) Scenario.environ
           Scenario.one_server "sub-1" "default" "sub-1" "sub-1");
    reflexivity.
Defined.

Lemma service_principal_with_all_three_witness :
  credential (lifespan_context
                (Scenario.started Stub.healthy Scenario.principal_environ
                   Scenario.one_server))
  = Some "service-principal"
  /\ (is_Some (credential (lifespan_context
                             (Scenario.started Stub.healthy
                                Scenario.principal_environ Scenario.one_server))) ->
      head (stdout (Scenario.started Stub.healthy Scenario.principal_environ
                      Scenario.one_server))
      = Some "Using Service Principal authentication").
Proof.
  apply (service_principal_with_all_three (SDK := Stub.sdk Stub.healthy)
           Scenario.principal_environ Scenario.one_server
           "sub-1" "tenant-1" "app-1" "s3cret");
    reflexivity.
Defined.

Lemma default_credential_on_partial_set_witness :
  credential (lifespan_context
                (Scenario.started Stub.healthy Scenario.partial_environ
                   Scenario.one_server))
  = Some "default"
  /\ (is_Some (credential (lifespan_context
                             (Scenario.started Stub.healthy
                                Scenario.partial_environ Scenario.one_server))) ->
      head (stdout (Scenario.started Stub.healthy Scenario.partial_environ
                      Scenario.one_server))
      = Some "Using Default Azure credential").
Proof.
  apply (default_credential_on_partial_set (SDK := Stub.sdk Stub.healthy)
           Scenario.partial_environ Scenario.one_server "sub-1").
  - reflexivity.
  - reflexivity.
  - right. left. reflexivity.
Defined.

Lemma startup_without_usable_subscription_witness :
  lifespan_context (Scenario.started Stub.healthy Scenario.blank_environ
                      Scenario.one_server)
  = AzureContext_new
  /\ stdout (Scenario.started Stub.healthy Scenario.blank_environ Scenario.one_server)
     = ["Warning: AZURE_SUBSCRIPTION_ID not set."].
Proof.
  apply (startup_without_usable_subscription (SDK := Stub.sdk Stub.healthy)
           Scenario.blank_environ Scenario.one_server).
  reflexivity.
Defined.

Lemma credential_fault_leaves_context_empty_witness :
  lifespan_context (Scenario.started Scenario.credential_broken Scenario.environ
                      Scenario.one_server)
  = AzureContext_new
  /\ stdout (Scenario.started Scenario.credential_broken Scenario.environ
               Scenario.one_server)
     = ["Warning: Could not initialize Azure clients: "
          +:+ "cannot construct credential"]
  /\ fst (get_subscription_info
            (Scenario.started Scenario.credential_broken Scenario.environ
               Scenario.one_server))
     = Ok "No Azure subscription configured".
Proof.
  apply (credential_fault_leaves_context_empty
           (SDK := Stub.sdk Scenario.credential_broken)
           Scenario.environ Scenario.one_server "sub-1"
           (Exception "ValueError" "cannot construct credential"));
    reflexivity.
Defined.

Lemma subscription_info_after_startup_witness :
  get_subscription_info
    (Scenario.started Scenario.sql_client_broken Scenario.environ Scenario.one_server)
  = (Ok ("Azure Subscription ID: " +:+ "sub-1"),
     Scenario.started Scenario.sql_client_broken Scenario.environ Scenario.one_server).
Proof.
  apply (subscription_info_after_startup (SDK := Stub.sdk Scenario.sql_client_broken)
           Scenario.environ Scenario.one_server "sub-1" "default");
    reflexivity.
Defined.

Lemma absent_client_short_circuits_witness :
  handle tool_list_resource_groups
    (Scenario.started Scenario.resource_client_broken Scenario.environ
       Scenario.one_server)
  = (Ok "Error: Azure client not initialized. Please check your credentials.",
     Scenario.started Scenario.resource_client_broken Scenario.environ
       Scenario.one_server).
Proof.
  apply (absent_client_short_circuits tool_list_resource_groups
           (Scenario.started Scenario.resource_client_broken Scenario.environ
              Scenario.one_server)).
  reflexivity.
Defined.

Lemma reads_never_write_witness :
  Forall (fun c => is_write c = false)
    (calls_since Scenario.ready
       (snd (handle (tool_list_databases "rg1" "srv1") Scenario.ready))).
Proof.
  apply (reads_never_write (tool_list_databases "rg1" "srv1") Scenario.ready).
  reflexivity.
Defined.

Lemma resource_group_of_id_parts_witness :
  resource_group_of_id
    (Some (join "/" [""; "subscriptions"; "sub-1"; "resourceGroups"; "rg1";
                     "providers"; "Microsoft.Sql"; "servers"; "srv1"]))
    Scenario.ready
  = (Ok "rg1", Scenario.ready).
Proof.
  apply (resource_group_of_id_parts
           [""; "subscriptions"; "sub-1"; "resourceGroups"; "rg1";
            "providers"; "Microsoft.Sql"; "servers"; "srv1"] Scenario.ready).
  repeat constructor.
Defined.

Lemma list_sql_servers_blocks_witness :
  fst (list_sql_servers None Scenario.ready)
  = Ok (join nl
          ([ "SQL SERVERS"; str_mul "=" 50 ]
           ++ concat (map (fun s => server_block (default "" (id_group s)) s)
                        [Scenario.srv1]))).
Proof.
  apply (list_sql_servers_blocks None Scenario.ready "sub-1" Scenario.srv1 []
           Scenario.one_server).
  - reflexivity.
  - reflexivity.
  - repeat constructor. exists "rg1". reflexivity.
Defined.

Lemma list_sql_servers_bad_id_witness :
  exists msg,
    fst (list_sql_servers None
           (Scenario.started Stub.healthy Scenario.environ Scenario.odd_cloud))
    = Ok ("Failed to list SQL servers: " +:+ msg)
    /\ (msg = "list index out of range"
        \/ msg = "'NoneType' object has no attribute 'split'").
Proof.
  apply (list_sql_servers_bad_id None
           (Scenario.started Stub.healthy Scenario.environ Scenario.odd_cloud)
           "sub-1" [Scenario.srv1; Scenario.odd_server] Scenario.odd_cloud).
  - reflexivity.
  - reflexivity.
  - right. left. reflexivity.
Defined.

Lemma list_sql_servers_filtered_witness :
  calls_since (Scenario.started Stub.healthy Scenario.environ Scenario.two_groups)
    (snd (list_sql_servers (Some "rg2")
            (Scenario.started Stub.healthy Scenario.environ Scenario.two_groups)))
  = [ {| call_op :=
           existT _ (@servers_list_by_resource_group Stub.types "sub-1" "rg2");
         call_raised := None |} ]
  /\ fst (list_sql_servers (Some "rg2")
            (Scenario.started Stub.healthy Scenario.environ Scenario.two_groups))
     = Ok "No SQL servers found in resource group 'rg2'.".
Proof.
  destruct (list_sql_servers_filtered "rg2"
              (Scenario.started Stub.healthy Scenario.environ Scenario.two_groups)
              "sub-1" (@Ok (list Server.t) []) Scenario.two_groups
              eq_refl eq_refl eq_refl) as [Hcalls Htext].
  split; [exact Hcalls | exact (Htext eq_refl)].
Defined.

Lemma list_resource_groups_empty_witness :
  fst (list_resource_groups
         (Scenario.started Stub.healthy Scenario.environ Scenario.empty_cloud))
  = Ok "No resource groups found in the subscription."
  /\ calls_since (Scenario.started Stub.healthy Scenario.environ Scenario.empty_cloud)
       (snd (list_resource_groups
               (Scenario.started Stub.healthy Scenario.environ Scenario.empty_cloud)))
     = [ {| call_op := existT _ (@resource_groups_list Stub.types "sub-1");
            call_raised := None |} ].
Proof.
  apply (list_resource_groups_empty
           (Scenario.started Stub.healthy Scenario.environ Scenario.empty_cloud)
           "sub-1" Scenario.empty_cloud);
    reflexivity.
Defined.

Lemma list_databases_empty_witness :
  fst (list_databases "rg1" "srv1" Scenario.ready)
  = Ok ("No databases found on server '" +:+ "srv1" +:+ "'.")
  /\ calls_since Scenario.ready (snd (list_databases "rg1" "srv1" Scenario.ready))
     = [ {| call_op :=
              existT _ (@databases_list_by_server Stub.types "sub-1" "rg1" "srv1");
            call_raised := None |} ].
Proof.
  apply (list_databases_empty "rg1" "srv1" Scenario.ready "sub-1" Scenario.one_server);
    reflexivity.
Defined.

(** Tags that are JSON but no object go to the cloud as they are. *)
Lemma create_resource_group_sends_decoded_tags_witness :
  calls_since Scenario.ready
    (snd (create_resource_group "rg3" "eastus" (Some "[1, 2]") Scenario.ready))
  = [ {| call_op :=
           existT _ (@resource_groups_create_or_update Stub.types "sub-1" "rg3"
                       {| rg_location := "eastus";
                          rg_tags := Json.JArray [Json.JInt 1; Json.JInt 2] |});
         call_raised := None |} ]
  /\ fst (create_resource_group "rg3" "eastus" (Some "[1, 2]") Scenario.ready)
     = Ok ("Resource group '" +:+ "rg3" +:+ "' created successfully in " +:+ "eastus").
Proof.
  apply (create_resource_group_sends_decoded_tags "rg3" "eastus" "[1, 2]"
           (Json.JArray [Json.JInt 1; Json.JInt 2]) Scenario.ready "sub-1"
           (fst (Stub.answer _
                   (@resource_groups_create_or_update Stub.types "sub-1" "rg3"
                      {| rg_location := "eastus";
                         rg_tags := Json.JArray [Json.JInt 1; Json.JInt 2] |})
                   Scenario.one_server))
           (snd (Stub.answer _
                   (@resource_groups_create_or_update Stub.types "sub-1" "rg3"
                      {| rg_location := "eastus";
                         rg_tags := Json.JArray [Json.JInt 1; Json.JInt 2] |})
                   Scenario.one_server)));
    reflexivity.
Defined.

Lemma create_resource_group_without_tags_witness :
  calls_since Scenario.ready
    (snd (create_resource_group "rg3" "eastus" None Scenario.ready))
  = [ {| call_op :=
           existT _ (@resource_groups_create_or_update Stub.types "sub-1" "rg3"
                       {| rg_location := "eastus"; rg_tags := Json.JObject [] |});
         call_raised := None |} ]
  /\ fst (create_resource_group "rg3" "eastus" None Scenario.ready)
     = Ok ("Resource group '" +:+ "rg3" +:+ "' created successfully in " +:+ "eastus").
Proof.
  apply (create_resource_group_without_tags "rg3" "eastus" None Scenario.ready "sub-1"
           (fst (Stub.answer _
                   (@resource_groups_create_or_update Stub.types "sub-1" "rg3"
                      {| rg_location := "eastus"; rg_tags := Json.JObject [] |})
                   Scenario.one_server))
           (snd (Stub.answer _
                   (@resource_groups_create_or_update Stub.types "sub-1" "rg3"
                      {| rg_location := "eastus"; rg_tags := Json.JObject [] |})
                   Scenario.one_server)));
    reflexivity.
Defined.

(** Tags nested deeper than the interpreter allows are no JSON-format
    error. *)
Lemma create_resource_group_decoder_fault_witness :
  create_resource_group "rg3" "eastus" (Some "[[[[1]]]]") (Scenario.ready_within 3)
  = (Ok ("Failed to create resource group: "
           +:+ "maximum recursion depth exceeded while decoding a JSON document"),
     Scenario.ready_within 3).
Proof.
  apply (create_resource_group_decoder_fault (SDK := Stub.sdk_within 3)
           "rg3" "eastus" "[[[[1]]]]"
           (Exception "RecursionError"
              "maximum recursion depth exceeded while decoding a JSON document")
           (Scenario.ready_within 3) "sub-1").
  - reflexivity.
  - reflexivity.
  - reflexivity.
  - intros msg. discriminate.
Defined.

Lemma create_sql_server_sends_arguments_witness :
  calls_since Scenario.ready
    (snd (handle (tool_create_sql_server "rg1" "srv2" "eastus" "dba" "secret" None)
            Scenario.ready))
  = [ {| call_op :=
           existT _ (@servers_check_name_availability Stub.types "sub-1"
                       {| CheckNameAvailabilityRequest.name := "srv2";
                          CheckNameAvailabilityRequest.type := "Microsoft.Sql/servers" |});
         call_raised := None |};
      {| call_op :=
           existT _ (@servers_begin_create_or_update Stub.types "sub-1" "rg1" "srv2"
                       (server_params_of "eastus" "12.0" "dba" "secret"));
         call_raised := None |};
      {| call_op :=
           existT _ (@lro_result Stub.types Server.t
                       (Ok {| Server.id := Some (Stub.server_id "sub-1" "rg1" "srv2");
                              Server.name := Some "srv2";
                              Server.location := "eastus";
                              Server.state := Some "Ready";
                              Server.version := Some "12.0";
                              Server.administrator_login := Some "dba";
                              Server.fully_qualified_domain_name :=
                                Some "srv2.database.windows.net" |}));
         call_raised := None |} ]
  /\ stdout (snd (handle (tool_create_sql_server "rg1" "srv2" "eastus" "dba" "secret"
                            None) Scenario.ready))
     = stdout Scenario.ready
       ++ [ "Creating SQL server '" +:+ "srv2" +:+ "'... This may take several minutes." ].
Proof.
  apply (create_sql_server_sends_arguments "rg1" "srv2" "eastus" "dba" "secret" None
           Scenario.ready "sub-1"
           {| CheckNameAvailabilityResponse.available := Some true;
              CheckNameAvailabilityResponse.message := None |}
           Scenario.one_server
           (fst (Stub.answer _
                   (@servers_begin_create_or_update Stub.types "sub-1" "rg1" "srv2"
                      (server_params_of "eastus" "12.0" "dba" "secret"))
                   Scenario.one_server))
           (snd (Stub.answer _
                   (@servers_begin_create_or_update Stub.types "sub-1" "rg1" "srv2"
                      (server_params_of "eastus" "12.0" "dba" "secret"))
                   Scenario.one_server)));
    reflexivity.
Defined.

(** The in-memory cloud keeps no password: it answers alike for any two. *)
Lemma create_sql_server_password_stays_out_witness :
  fst (create_sql_server "rg1" "srv2" "eastus" "dba" "secret" "12.0" Scenario.ready)
  = fst (create_sql_server "rg1" "srv2" "eastus" "dba" "other" "12.0" Scenario.ready)
  /\ stdout (snd (create_sql_server "rg1" "srv2" "eastus" "dba" "secret" "12.0"
                    Scenario.ready))
     = stdout (snd (create_sql_server "rg1" "srv2" "eastus" "dba" "other" "12.0"
                      Scenario.ready))
  /\ cloud (snd (create_sql_server "rg1" "srv2" "eastus" "dba" "secret" "12.0"
                   Scenario.ready))
     = cloud (snd (create_sql_server "rg1" "srv2" "eastus" "dba" "other" "12.0"
                     Scenario.ready)).
Proof.
  apply (create_sql_server_password_stays_out (SDK := Stub.sdk Stub.healthy)
           "rg1" "srv2" "eastus" "dba" "secret" "other" "12.0" Scenario.ready).
  intros client w. reflexivity.
Defined.

Lemma create_database_waits_for_its_operation_witness :
  map call_op
    (calls_since Scenario.ready
       (snd (create_database "rg1" "srv1" "db1" "Standard" "S1" Scenario.ready)))
  = [ existT _ (@servers_get Stub.types "sub-1" "rg1" "srv1");
      existT _ (@databases_begin_create_or_update Stub.types "sub-1" "rg1" "srv1" "db1"
                  {| db_location := "westeurope";
                     db_sku := {| sku_name := "S1"; sku_tier := "Standard" |} |});
      existT _ (@lro_result Stub.types Database.t
                  (Ok {| Database.name := Some "db1";
                         Database.location := "westeurope";
                         Database.status := Some "Online";
                         Database.sku := Some {| Sku.name := Some "S1";
                                                 Sku.tier := Some "Standard" |};
                         Database.current_service_objective_name := Some "S1";
                         Database.max_size_bytes := Some 2147483648;
                         Database.creation_date :=
                           Some {| str_datetime := "2024-01-01 00:00:00+00:00" |} |})) ]
  /\ stdout (snd (create_database "rg1" "srv1" "db1" "Standard" "S1" Scenario.ready))
     = stdout Scenario.ready
       ++ [ "Creating database '" +:+ "db1" +:+ "' on server '" +:+ "srv1"
              +:+ "' in location '" +:+ "westeurope" +:+ "'..." ].
Proof.
  apply (create_database_waits_for_its_operation "rg1" "srv1" "db1" "Standard" "S1"
           Scenario.ready "sub-1" Scenario.srv1 Scenario.one_server
           (Ok {| Database.name := Some "db1";
                  Database.location := "westeurope";
                  Database.status := Some "Online";
                  Database.sku := Some {| Sku.name := Some "S1";
                                          Sku.tier := Some "Standard" |};
                  Database.current_service_objective_name := Some "S1";
                  Database.max_size_bytes := Some 2147483648;
                  Database.creation_date :=
                    Some {| str_datetime := "2024-01-01 00:00:00+00:00" |} |})
           (snd (Stub.answer _
                   (@databases_begin_create_or_update Stub.types "sub-1" "rg1" "srv1"
                      "db1"
                      {| db_location := "westeurope";
                         db_sku := {| sku_name := "S1"; sku_tier := "Standard" |} |})
                   Scenario.one_server)));
    reflexivity.
Defined.

Lemma recommendation_ignores_case_witness :
  recommendation "HIGH" "Large" = recommendation "high" "large".
Proof.
  apply (recommendation_ignores_case "HIGH" "high" "Large" "large"); reflexivity.
Defined.

(** With the empty string as resource group, the server of [rg1] is
    listed. *)
Lemma list_sql_servers_empty_group_lists_all_witness :
  fst (list_sql_servers (Some "") Scenario.ready)
  = Ok (join nl
          ([ "SQL SERVERS"; str_mul "=" 50 ]
           ++ concat (map (fun s => server_block (default "" (id_group s)) s)
                        [Scenario.srv1]))).
Proof.
  destruct (list_sql_servers_empty_group_lists_all Scenario.ready)
    as (_ & _ & Htext).
  destruct (Htext "sub-1" (Ok [Scenario.srv1]) Scenario.one_server eq_refl eq_refl)
    as (_ & Hok & _).
  apply Hok. repeat constructor. exists "rg1". reflexivity.
Defined.

Example empty_group_listing_text :
  fst (list_sql_servers (Some "") Scenario.ready)
  = Ok (join nl
          [ "SQL SERVERS"; str_mul "=" 50;
            "Name: srv1"; "Location: westeurope"; "Resource Group: rg1";
            "State: Ready"; "Version: 12.0"; "Admin Login: dba";
            "Fully Qualified Domain Name: srv1.database.windows.net";
            str_mul "-" 50 ]).
Proof. reflexivity. Qed.
